(** * DevOps REST API (app/main.py): metric collectors and their endpoints

    A shallow embedding of the helper functions of [app/main.py]
    ([get_cpu_info], [get_memory_info], [get_disk_info], [get_network_info],
    [get_system_info], [get_top_processes]) and of the endpoints built on
    them, followed by the properties the specification states about them.

    Conventions of the embedding:
    - a Python [int] is a [Z]; a Python [float] is the rational it denotes
      ([Q]), and an operation on floats rounds its exact result to binary64
      (NaN and the infinities do not occur in the samples [psutil]
      reports);
    - a Python [dict] built by a literal is an association list in insertion
      order; JSON-like results are values of type [value];
    - an exception is a constructor of [exn]; a computation either returns
      ([Ok]) or raises ([Raise]);
    - every query of the operating system ([psutil], [platform], the clock)
      is answered by a [host] oracle and recorded in a log of calls, so that
      the order of samplings, and their absence, can be stated. *)

From Stdlib Require Import ZArith QArith Qround Qpower List String Ascii Lia Bool.
From Stdlib Require Import Sorting.Sorted Sorting.Permutation.
From Stdlib Require Import Lqa DecimalString.
Import ListNotations.
Local Open Scope string_scope.
Local Open Scope Z_scope.
Set Warnings "-register-all".

(** ** Python values *)

Inductive value : Type :=
| VNone
| VInt (n : Z)
| VFloat (q : Q)
| VStr (s : string)
| VList (l : list value)
| VDict (d : list (string * value)).

(** The exceptions (all subclasses of [Exception]) that can travel through
    the collectors. *)
Inductive exn : Type :=
| OSError (msg : string)
| NotImplementedError (msg : string)
| NoSuchProcess
| AccessDenied
| KeyError (key : string)
| TypeError
| ValueError (msg : string)
| OverflowError (msg : string)
| HTTPException (status_code : Z) (detail : string).

Inductive result (A : Type) : Type :=
| Ok (a : A)
| Raise (e : exn).
Arguments Ok {A} a.
Arguments Raise {A} e.

(** ** Dictionaries *)

Fixpoint dict_get (k : string) (d : list (string * value)) : option value :=
  match d with
  | [] => None
  | (k', v) :: d' => if String.eqb k k' then Some v else dict_get k d'
  end.

Definition dict_keys (d : list (string * value)) : list string := map fst d.

(** [x[k]]: subscription of a value by a string key. *)
Definition subscript (x : value) (k : string) : result value :=
  match x with
  | VDict d => match dict_get k d with
               | Some v => Ok v
               | None => Raise (KeyError k)
               end
  | _ => Raise TypeError
  end.

(** The number a value denotes in an order comparison. *)
Definition as_number (v : value) : result Q :=
  match v with
  | VInt n => Ok (inject_Z n)
  | VFloat q => Ok q
  | _ => Raise TypeError
  end.

(** ** Rounding *)

(** Nearest integer, ties to the even one: the rounding of [round] and of
    [datetime.fromtimestamp]. *)
Definition round_half_even (q : Q) : Z :=
  let f := Qfloor q in
  match Qcompare (q - inject_Z f) (1 # 2) with
  | Lt => f
  | Gt => f + 1
  | Eq => if Z.even f then f else f + 1
  end.

(** [round(x, 2)] on a float. *)
Definition round2 (q : Q) : Q := Qmake (round_half_even (q * 100)) 100.

(** *** Binary floating point

    A [float] is a binary64 number, modelled by the rational it is.  The
    result of an arithmetic operation is the nearest binary64 number to the
    exact result, ties to the even mantissa; so is the [float] of an [int].
    (Overflow to infinity, beyond 2^1024, is not modelled: the operands
    here are 64-bit counters.)  The result of [round(x, 2)] is the binary64
    number nearest to a number of two decimals: it is represented by that
    number of two decimals.  For the magnitudes at hand (percentages, load
    averages, 64-bit counters divided by 10^6 or 10^9: all below 2^45) that
    is the number the float is printed as, and two such numbers order and
    compare as their binary64 numbers do. *)

(** The largest [k] with [2 ^ k <= q], for a positive [q]. *)
Definition ilog2 (q : Q) : Z :=
  let k := Z.log2 (Qnum q) - Z.log2 (Zpos (Qden q)) in
  if Qle_bool (2 ^ k) q then k else k - 1.

(** The nearest binary64 number to a positive [q]: 53 bits of mantissa, and
    the exponent of the subnormal numbers at the bottom. *)
Definition binary64_pos (q : Q) : Q :=
  let e := Z.max (ilog2 q - 52) (-1074) in
  inject_Z (round_half_even (q / 2 ^ e)) * 2 ^ e.

Definition binary64 (q : Q) : Q :=
  match Qnum q with
  | Z0 => 0
  | Zpos _ => binary64_pos q
  | Zneg _ => - binary64_pos (- q)
  end.

(** [float(n)] for an [int], and [x / y] for two floats. *)
Definition float_of_int (n : Z) : Q := binary64 (inject_Z n).
Definition float_div (x y : Q) : Q := binary64 (x / y).

(** [round(x, 2)] on the result of [v or 0]: an [int] stays an [int]. *)
Definition py_round2 (v : value) : result value :=
  match v with
  | VInt n => Ok (VInt n)
  | VFloat q => Ok (VFloat (round2 q))
  | _ => Raise TypeError
  end.

(** [x or 0] for an optional float sample: [None] and [0.0] are falsy. *)
Definition or_zero (x : option Q) : value :=
  match x with
  | None => VInt 0
  | Some q => if Qeq_bool q 0 then VInt 0 else VFloat q
  end.

(** ** Slicing and sorting *)

(** [l[:n]]: a negative bound counts from the end of the list. *)
Definition slice_to {A : Type} (l : list A) (n : Z) : list A :=
  if 0 <=? n then firstn (Z.to_nat n) l
  else firstn (Z.to_nat (Z.of_nat (List.length l) + n)) l.

(** [sorted(l, key=..., reverse=True)] is a stable sort in descending order
    of the keys: elements whose keys compare equal keep their order.  The
    keys are computed once for every element before any comparison.  A
    stable sort has one possible result ([stable_sort_unique] below), so the
    insertion sort here returns what the library's merge sort returns. *)
Fixpoint insert_desc {A : Type} (x : Q * A) (l : list (Q * A)) : list (Q * A) :=
  match l with
  | [] => [x]
  | y :: l' => if Qle_bool (fst y) (fst x) then x :: y :: l'
               else y :: insert_desc x l'
  end.

Fixpoint sort_desc {A : Type} (l : list (Q * A)) : list (Q * A) :=
  match l with
  | [] => []
  | x :: l' => insert_desc x (sort_desc l')
  end.

Fixpoint decorate {A : Type} (key : A -> result Q) (l : list A)
  : result (list (Q * A)) :=
  match l with
  | [] => Ok []
  | x :: l' =>
      match key x with
      | Raise e => Raise e
      | Ok k => match decorate key l' with
                | Raise e => Raise e
                | Ok kl => Ok ((k, x) :: kl)
                end
      end
  end.

(** [y] may follow [x] in a descending list of keyed elements. *)
Definition desc {A : Type} (x y : Q * A) : Prop := (fst y <= fst x)%Q.

(** Selection of the keyed elements whose key equals [k]. *)
Definition with_key {A : Type} (k : Q) (x : Q * A) : bool := Qeq_bool (fst x) k.

Definition sorted_reverse {A : Type} (key : A -> result Q) (l : list A)
  : result (list A) :=
  match decorate key l with
  | Raise e => Raise e
  | Ok kl => Ok (map snd (sort_desc kl))
  end.

(** ** Instants and their ISO-8601 rendering *)

(** A [datetime] in UTC is its number of microseconds since the epoch. *)
Definition datetime := Z.

(** [int((a - b).total_seconds())]: the difference of two instants in whole
    seconds, truncated towards zero. *)
Definition int_total_seconds (a b : datetime) : Z := Z.quot (a - b) 1000000.

Definition digit (n : Z) : ascii := ascii_of_nat (48 + Z.to_nat (n mod 10)).

(** [n] in decimal on [width] digits, padded with zeros. *)
Fixpoint zfill (width : nat) (n : Z) : string :=
  match width with
  | O => EmptyString
  | S w => zfill w (n / 10) ++ String (digit n) EmptyString
  end.

(** Proleptic Gregorian date [(year, month, day)] of a day number counted
    from 1970-01-01. *)
Definition civil_of_days (z : Z) : Z * Z * Z :=
  let z := z + 719468 in
  let era := z / 146097 in
  let doe := z - era * 146097 in
  let yoe := (doe - doe / 1460 + doe / 36524 - doe / 146096) / 365 in
  let doy := doe - (365 * yoe + yoe / 4 - yoe / 100) in
  let mp := (5 * doy + 2) / 153 in
  let d := doy - (153 * mp + 2) / 5 + 1 in
  let m := if mp <? 10 then mp + 3 else mp - 9 in
  let y := yoe + era * 400 in
  (if m <=? 2 then y + 1 else y, m, d).

(** [datetime.fromtimestamp(t, tz=timezone.utc)]: the float [t], in seconds,
    is rounded to the nearest microsecond, ties to even.  A [datetime] holds
    the years 1 to 9999: an instant outside them raises [ValueError].  Before
    that, as on Linux with a 64-bit [time_t], a number of seconds that does
    not fit [time_t] raises [OverflowError], and a year that does not fit
    the [int] of [gmtime] raises [OSError]. *)
Definition fromtimestamp (t : Q) : result datetime :=
  let us := round_half_even (t * inject_Z 1000000) in
  let secs := us / 1000000 in
  if (secs <? - 2 ^ 63) || (2 ^ 63 - 1 <? secs) then
    Raise (OverflowError "timestamp out of range for platform time_t")
  else
    let '(y, _, _) := civil_of_days (secs / 86400) in
    if (y - 1900 <? - 2 ^ 31) || (2 ^ 31 - 1 <? y - 1900) then
      Raise (OSError "[Errno 75] Value too large for defined data type")
    else if (y <? 1) || (9999 <? y) then
      Raise (ValueError
               ("year " ++ NilEmpty.string_of_int (Z.to_int y) ++ " is out of range"))
    else Ok us.

(** [dt.isoformat()] for an aware UTC datetime: the fraction of a second is
    printed only when it is not zero. *)
Definition isoformat (dt : datetime) : string :=
  let days := dt / 86400000000 in
  let rest := dt mod 86400000000 in
  let secs := rest / 1000000 in
  let micro := rest mod 1000000 in
  let '(y, m, d) := civil_of_days days in
  zfill 4 y ++ "-" ++ zfill 2 m ++ "-" ++ zfill 2 d ++ "T"
  ++ zfill 2 (secs / 3600) ++ ":" ++ zfill 2 (secs / 60 mod 60) ++ ":"
  ++ zfill 2 (secs mod 60)
  ++ (if micro =? 0 then "" else "." ++ zfill 6 micro)
  ++ "+00:00".

(** ** The host: what the operating system answers *)

(** The tuples of [psutil], with the fields the collectors read. *)
Record svmem := { vm_total : Z; vm_available : Z; vm_percent : Q; vm_used : Z }.
Record sswap := { sw_total : Z; sw_used : Z; sw_percent : Q }.
Record sdiskusage := { du_total : Z; du_used : Z; du_free : Z; du_percent : Q }.
Record sdiskio := { read_bytes : Z; write_bytes : Z }.
Record snetio := {
  bytes_sent : Z; bytes_recv : Z;
  packets_sent : Z; packets_recv : Z;
  errin : Z; errout : Z }.

(** The [info] dictionary [process_iter] attaches to a process for the
    attributes pid, name, cpu_percent, memory_percent and status; an
    attribute the caller may not read is [None]. *)
Record pinfo := {
  pi_pid : Z;
  pi_name : option string;
  pi_cpu_percent : option Q;
  pi_memory_percent : option Q;
  pi_status : option string }.

(** The calls made to the operating system, as they are logged. *)
Inductive call : Type :=
| c_now
| c_cpu_percent (interval : Q) (percpu : bool)
| c_cpu_count (logical : bool)
| c_getloadavg
| c_virtual_memory
| c_swap_memory
| c_disk_usage (path : string)
| c_disk_io_counters
| c_net_io_counters
| c_boot_time
| c_pids
| c_process_iter
| c_platform (what : string).

Definition log := list call.

(** The answers of the host.  Every answer depends on a tick, the number of
    calls made before it: two calls of one request, or of two requests, may
    see different readings.  A source the platform lacks raises. *)
Record host := {
  h_now : nat -> datetime;
  h_cpu_percent : nat -> Q -> result Q;
  h_cpu_percent_percpu : nat -> Q -> result (list Q);
  h_cpu_count : nat -> bool -> result (option Z);
  h_getloadavg : nat -> result (Q * Q * Q);
  h_virtual_memory : nat -> result svmem;
  h_swap_memory : nat -> result sswap;
  h_disk_usage : nat -> string -> result sdiskusage;
  h_disk_io_counters : nat -> result (option sdiskio);
  h_net_io_counters : nat -> result snetio;
  h_boot_time : nat -> result Q;
  h_pids : nat -> result (list Z);
  h_process_iter : nat -> result (list (result pinfo));
  h_platform : nat -> string -> string }.

(** ** Computations: host reader, call log, exceptions *)

Definition M (A : Type) : Type := host -> log -> result A * log.

Definition ret {A : Type} (a : A) : M A := fun _ t => (Ok a, t).

Definition raise {A : Type} (e : exn) : M A := fun _ t => (Raise e, t).

Definition bind {A B : Type} (m : M A) (f : A -> M B) : M B :=
  fun h t =>
    match m h t with
    | (Ok a, t') => f a h t'
    | (Raise e, t') => (Raise e, t')
    end.

(** [try: m except Exception as e: handler e]. *)
Definition try_except {A : Type} (m : M A) (handler : exn -> M A) : M A :=
  fun h t =>
    match m h t with
    | (Ok a, t') => (Ok a, t')
    | (Raise e, t') => handler e h t'
    end.

(** One call to the host: it is answered at the current tick and logged. *)
Definition sys {A : Type} (c : call) (answer : host -> nat -> result A) : M A :=
  fun h t => (answer h (List.length t), (t ++ [c])%list).

(** A pure step that may raise. *)
Definition lift {A : Type} (r : result A) : M A := fun _ t => (r, t).

Declare Scope monad_scope.
Delimit Scope monad_scope with monad.
Notation "x <- m ;; k" := (bind m (fun x => k))
  (at level 61, m at next level, right associativity) : monad_scope.
Notation "' pat <- m ;; k" := (bind m (fun x => match x with pat => k end))
  (at level 61, pat pattern, m at next level, right associativity) : monad_scope.
Local Open Scope monad_scope.

Fixpoint mapM {A B : Type} (f : A -> M B) (l : list A) : M (list B) :=
  match l with
  | [] => ret []
  | x :: l' => y <- f x ;; ys <- mapM f l' ;; ret (y :: ys)
  end.

(** The queries of [datetime], [psutil] and [platform]. *)
Definition datetime_now : M datetime :=
  sys c_now (fun h n => Ok (h_now h n)).
Definition psutil_cpu_percent (interval : Q) : M Q :=
  sys (c_cpu_percent interval false) (fun h n => h_cpu_percent h n interval).
Definition psutil_cpu_percent_percpu (interval : Q) : M (list Q) :=
  sys (c_cpu_percent interval true) (fun h n => h_cpu_percent_percpu h n interval).
Definition psutil_cpu_count (logical : bool) : M (option Z) :=
  sys (c_cpu_count logical) (fun h n => h_cpu_count h n logical).
Definition psutil_getloadavg : M (Q * Q * Q) := sys c_getloadavg h_getloadavg.
Definition psutil_virtual_memory : M svmem := sys c_virtual_memory h_virtual_memory.
Definition psutil_swap_memory : M sswap := sys c_swap_memory h_swap_memory.
Definition psutil_disk_usage (path : string) : M sdiskusage :=
  sys (c_disk_usage path) (fun h n => h_disk_usage h n path).
Definition psutil_disk_io_counters : M (option sdiskio) :=
  sys c_disk_io_counters h_disk_io_counters.
Definition psutil_net_io_counters : M snetio := sys c_net_io_counters h_net_io_counters.
Definition psutil_boot_time : M Q := sys c_boot_time h_boot_time.
Definition psutil_pids : M (list Z) := sys c_pids h_pids.
Definition psutil_process_iter : M (list (result pinfo)) :=
  sys c_process_iter h_process_iter.
Definition platform (what : string) : M string :=
  sys (c_platform what) (fun h n => Ok (h_platform h n what)).

(** ** Helper functions of [app/main.py] *)

Definition giga : Q := inject_Z 1000000000.
Definition mega : Q := inject_Z 1000000.

(** [round(n / 1e9, 2)] and [round(n / 1e6, 2)] for a byte count [n]: the
    [int] is converted to a float, and the quotient of the two floats is
    rounded to two decimals. *)
Definition round_gb (n : Z) : value := VFloat (round2 (float_div (float_of_int n) giga)).
Definition round_mb (n : Z) : value := VFloat (round2 (float_div (float_of_int n) mega)).

Definition opt_int (n : option Z) : value :=
  match n with Some z => VInt z | None => VNone end.

Definition opt_str (s : option string) : value :=
  match s with Some x => VStr x | None => VNone end.

(** Collect CPU metrics. *)
Definition get_cpu_info : M value :=
  percent <- psutil_cpu_percent 1 ;;
  percpu <- psutil_cpu_percent_percpu (1 # 10) ;;
  count <- psutil_cpu_count true ;;
  physical <- psutil_cpu_count false ;;
  '(l1, l5, l15) <- psutil_getloadavg ;;
  ret (VDict
    [ ("percent", VFloat (round2 percent));
      ("percent_per_core", VList (map (fun p => VFloat (round2 p)) percpu));
      ("core_count", opt_int count);
      ("core_count_physical", opt_int physical);
      ("load_avg", VList [VFloat (round2 l1); VFloat (round2 l5); VFloat (round2 l15)]) ]).

(** Collect memory metrics. *)
Definition get_memory_info : M value :=
  ram <- psutil_virtual_memory ;;
  swap <- psutil_swap_memory ;;
  ret (VDict
    [ ("ram", VDict
        [ ("total_gb", round_gb (vm_total ram));
          ("used_gb", round_gb (vm_used ram));
          ("available_gb", round_gb (vm_available ram));
          ("percent", VFloat (round2 (vm_percent ram))) ]);
      ("swap", VDict
        [ ("total_gb", round_gb (sw_total swap));
          ("used_gb", round_gb (sw_used swap));
          ("percent", VFloat (round2 (sw_percent swap))) ]) ]).

(** Collect disk metrics for a given path.  Whatever the body raises is
    turned into an HTTP 400 naming the path. *)
Definition get_disk_info (path : string) : M value :=
  try_except
    (usage <- psutil_disk_usage path ;;
     io <- psutil_disk_io_counters ;;
     let result :=
       [ ("path", VStr path);
         ("total_gb", round_gb (du_total usage));
         ("used_gb", round_gb (du_used usage));
         ("free_gb", round_gb (du_free usage));
         ("percent", VFloat (round2 (du_percent usage))) ] in
     ret (VDict
       match io with
       | Some c =>
           (result ++ [ ("io", VDict [ ("read_mb", round_mb (read_bytes c));
                                      ("write_mb", round_mb (write_bytes c)) ]) ])%list
       | None => result
       end))
    (fun _ => raise (HTTPException 400 ("Invalid disk path: " ++ path))).

(** Collect network I/O metrics. *)
Definition get_network_info : M value :=
  net <- psutil_net_io_counters ;;
  ret (VDict
    [ ("bytes_sent_mb", round_mb (bytes_sent net));
      ("bytes_recv_mb", round_mb (bytes_recv net));
      ("packets_sent", VInt (packets_sent net));
      ("packets_recv", VInt (packets_recv net));
      ("errors_in", VInt (errin net));
      ("errors_out", VInt (errout net)) ]).

(** Collect static system information. *)
Definition get_system_info : M value :=
  bt <- psutil_boot_time ;;
  boot_time <- lift (fromtimestamp bt) ;;
  now <- datetime_now ;;
  let uptime_seconds := int_total_seconds now boot_time in
  hostname <- platform "node" ;;
  os <- platform "system" ;;
  os_release <- platform "release" ;;
  architecture <- platform "machine" ;;
  python_version <- platform "python_version" ;;
  pids <- psutil_pids ;;
  ret (VDict
    [ ("hostname", VStr hostname);
      ("os", VStr os);
      ("os_release", VStr os_release);
      ("architecture", VStr architecture);
      ("python_version", VStr python_version);
      ("boot_time", VStr (isoformat boot_time));
      ("uptime_seconds", VInt uptime_seconds);
      ("process_count", VInt (Z.of_nat (List.length pids))) ]).

(** The dictionary appended for one process: the body of the [try]. *)
Definition proc_entry (p : result pinfo) : result value :=
  match p with
  | Raise e => Raise e
  | Ok i =>
      match py_round2 (or_zero (pi_cpu_percent i)) with
      | Raise e => Raise e
      | Ok cpu =>
          match py_round2 (or_zero (pi_memory_percent i)) with
          | Raise e => Raise e
          | Ok mem =>
              Ok (VDict [ ("pid", VInt (pi_pid i));
                          ("name", opt_str (pi_name i));
                          ("cpu_percent", cpu);
                          ("memory_percent", mem);
                          ("status", opt_str (pi_status i)) ])
          end
      end
  end.

(** The loop over the process table: a process whose entry raises
    [NoSuchProcess] or [AccessDenied] is passed over, any other exception
    leaves the loop. *)
Fixpoint collect_procs (rows : list (result pinfo)) : result (list value) :=
  match rows with
  | [] => Ok []
  | p :: rows' =>
      match proc_entry p with
      | Ok d => match collect_procs rows' with
                | Ok ds => Ok (d :: ds)
                | Raise e => Raise e
                end
      | Raise NoSuchProcess => collect_procs rows'
      | Raise AccessDenied => collect_procs rows'
      | Raise e => Raise e
      end
  end.

(** [lambda x: x["cpu_percent"]], read as the number the sort compares. *)
Definition cpu_key (x : value) : result Q :=
  match subscript x "cpu_percent" with
  | Ok v => as_number v
  | Raise e => Raise e
  end.

(** Return top N processes by CPU usage. *)
Definition get_top_processes (limit : Z) : M (list value) :=
  rows <- psutil_process_iter ;;
  procs <- lift (collect_procs rows) ;;
  ranked <- lift (sorted_reverse cpu_key procs) ;;
  ret (slice_to ranked limit).

(** The cpu_percent of an entry, as the sort reads it. *)
Definition cpu_percent_of (x : value) : Q :=
  match cpu_key x with Ok k => k | Raise _ => 0 end.

(** Selection of the entries whose cpu_percent equals [k]. *)
Definition cpu_is (k : Q) (x : value) : bool := Qeq_bool (cpu_percent_of x) k.

(** [y] may follow [x] in a ranking by descending cpu_percent. *)
Definition cpu_desc (x y : value) : Prop := (cpu_percent_of y <= cpu_percent_of x)%Q.

(** The exceptions the loop of [get_top_processes] passes over. *)
Definition passed_over (e : exn) : bool :=
  match e with
  | NoSuchProcess | AccessDenied => true
  | _ => false
  end.

(** A process whose entry can be read. *)
Definition readable (p : result pinfo) : bool :=
  match p with Ok _ => true | Raise _ => false end.

(** A row of the process table: an entry that can be read, or a process
    that has exited or may not be inspected. *)
Definition table_row (p : result pinfo) : bool :=
  match p with
  | Ok _ => true
  | Raise e => passed_over e
  end.

(** ** Endpoints *)

Definition timestamp_now : M value :=
  now <- datetime_now ;; ret (VStr (isoformat now)).

(** GET /system *)
Definition get_system : M value := get_system_info.

(** GET /metrics *)
Definition get_all_metrics : M value :=
  timestamp <- timestamp_now ;;
  system <- get_system_info ;;
  cpu <- get_cpu_info ;;
  memory <- get_memory_info ;;
  disk <- get_disk_info "/" ;;
  network <- get_network_info ;;
  top_processes <- get_top_processes 5 ;;
  ret (VDict
    [ ("timestamp", timestamp);
      ("system", system);
      ("cpu", cpu);
      ("memory", memory);
      ("disk", disk);
      ("network", network);
      ("top_processes", VList top_processes) ]).

(** GET /metrics/cpu *)
Definition get_cpu : M value :=
  timestamp <- timestamp_now ;;
  cpu <- get_cpu_info ;;
  ret (VDict [ ("timestamp", timestamp); ("cpu", cpu) ]).

(** GET /metrics/memory *)
Definition get_memory : M value :=
  timestamp <- timestamp_now ;;
  memory <- get_memory_info ;;
  ret (VDict [ ("timestamp", timestamp); ("memory", memory) ]).

(** GET /metrics/disk *)
Definition get_disk (path : string) : M value :=
  timestamp <- timestamp_now ;;
  disk <- get_disk_info path ;;
  ret (VDict [ ("timestamp", timestamp); ("disk", disk) ]).

(** GET /metrics/network *)
Definition get_network : M value :=
  timestamp <- timestamp_now ;;
  network <- get_network_info ;;
  ret (VDict [ ("timestamp", timestamp); ("network", network) ]).

(** GET /processes *)
Definition get_processes (limit : Z) : M value :=
  if 50 <? limit then raise (HTTPException 400 "Limit cannot exceed 50")
  else
    timestamp <- timestamp_now ;;
    processes <- get_top_processes limit ;;
    ret (VDict
      [ ("timestamp", timestamp);
        ("count", VInt limit);
        ("processes", VList processes) ]).

(** The sub-collections of [get_all_metrics], under the keys of the
    aggregate and in the order in which its dictionary literal evaluates
    them, after the timestamp. *)
Definition sections : list (string * M value) :=
  [ ("system", get_system_info);
    ("cpu", get_cpu_info);
    ("memory", get_memory_info);
    ("disk", get_disk_info "/");
    ("network", get_network_info);
    ("top_processes", ps <- get_top_processes 5 ;; ret (VList ps)) ].

(** Evaluation of keyed computations in sequence, into a dictionary. *)
Fixpoint run_sections (ss : list (string * M value)) : M (list (string * value)) :=
  match ss with
  | [] => ret []
  | (name, m) :: ss' =>
      v <- m ;; d <- run_sections ss' ;; ret ((name, v) :: d)
  end.

(** [v] is a dictionary with the key [k]. *)
Definition has_key (k : string) (v : value) : bool :=
  match v with
  | VDict d => existsb (String.eqb k) (dict_keys d)
  | _ => false
  end.

(** A section of the aggregate carries no timestamp of its own: it is a
    dictionary without that key, or a list of such dictionaries. *)
Definition no_timestamp (section : value) : Prop :=
  match section with
  | VDict d => existsb (String.eqb "timestamp") (dict_keys d) = false
  | VList l => Forall (fun p => has_key "timestamp" p = false) l
  | _ => False
  end.

(** The computations that only ever add calls to the log. *)
Definition log_extends {A : Type} (m : M A) : Prop :=
  forall h t r t', m h t = (r, t') -> exists calls, t' = (t ++ calls)%list.

(** ** What [psutil] promises *)

Definition in_percent (q : Q) : Prop := (0 <= q /\ q <= 100)%Q.

(** A value that is a float between 0 and 100. *)
Definition percentage (v : value) : Prop :=
  exists q, v = VFloat q /\ in_percent q.

(** The utilisation figures of [psutil] are percentages: the system-wide
    and the per-CPU utilisation, and the [percent] field of the memory,
    swap and disk usage tuples. *)
Record percent_sources (h : host) : Prop := {
  cpu_percent_range :
    forall n i p, h_cpu_percent h n i = Ok p -> in_percent p;
  cpu_percent_percpu_range :
    forall n i l, h_cpu_percent_percpu h n i = Ok l -> Forall in_percent l;
  virtual_memory_range :
    forall n m, h_virtual_memory h n = Ok m -> in_percent (vm_percent m);
  swap_memory_range :
    forall n s, h_swap_memory h n = Ok s -> in_percent (sw_percent s);
  disk_usage_range :
    forall n path u, h_disk_usage h n path = Ok u -> in_percent (du_percent u) }.

(** ** A sample host *)

(** Three processes, the second of which has exited when its entry is
    read; the first and the third tie on cpu_percent. *)
Definition sample_rows : list (result pinfo) :=
  [ Ok {| pi_pid := 1; pi_name := Some "init"; pi_cpu_percent := Some (5 # 10);
          pi_memory_percent := Some (1 # 10); pi_status := Some "sleeping" |};
    Raise NoSuchProcess;
    Ok {| pi_pid := 7; pi_name := Some "sshd"; pi_cpu_percent := Some (5 # 10);
          pi_memory_percent := None; pi_status := Some "sleeping" |};
    Ok {| pi_pid := 42; pi_name := Some "python"; pi_cpu_percent := Some (1234567 # 100000);
          pi_memory_percent := Some (25 # 10); pi_status := Some "running" |};
    Ok {| pi_pid := 43; pi_name := None; pi_cpu_percent := None;
          pi_memory_percent := None; pi_status := None |} ].

(** A two-core host booted at 1700000000 s; its clock starts one hour later
    and advances by a millisecond at every call.  Only the root directory
    and /tmp can be stat'ed. *)
Definition sample_host : host := {|
  h_now := fun n => 1700003600000000 + 1000 * Z.of_nat n;
  h_cpu_percent := fun _ _ => Ok (125 # 10);
  h_cpu_percent_percpu := fun _ _ => Ok [ 101 # 10; 149 # 10 ];
  h_cpu_count := fun _ logical => Ok (Some (if logical then 2 else 1));
  h_getloadavg := fun _ => Ok (15 # 100, 1 # 10, 5 # 100);
  h_virtual_memory := fun _ =>
    Ok {| vm_total := 8000000000; vm_available := 5000000000;
          vm_percent := 375 # 10; vm_used := 2500000000 |};
  h_swap_memory := fun _ => Ok {| sw_total := 0; sw_used := 0; sw_percent := 0 |};
  h_disk_usage := fun _ path =>
    if String.eqb path "/" || String.eqb path "/tmp"
    then Ok {| du_total := 100000000000; du_used := 40000000000;
               du_free := 60000000000; du_percent := 40 |}
    else Raise (OSError "No such file or directory");
  h_disk_io_counters := fun _ => Ok (Some {| read_bytes := 123456789; write_bytes := 5000000 |});
  h_net_io_counters := fun _ =>
    Ok {| bytes_sent := 1500000; bytes_recv := 2500000; packets_sent := 100;
          packets_recv := 200; errin := 0; errout := 0 |};
  h_boot_time := fun _ => Ok (inject_Z 1700000000);
  h_pids := fun _ => Ok [1; 2; 7; 42; 43];
  h_process_iter := fun _ => Ok sample_rows;
  h_platform := fun _ what => what |}.

(** The sample host without a root directory. *)
Definition rootless_host : host := {|
  h_now := h_now sample_host;
  h_cpu_percent := h_cpu_percent sample_host;
  h_cpu_percent_percpu := h_cpu_percent_percpu sample_host;
  h_cpu_count := h_cpu_count sample_host;
  h_getloadavg := h_getloadavg sample_host;
  h_virtual_memory := h_virtual_memory sample_host;
  h_swap_memory := h_swap_memory sample_host;
  h_disk_usage := fun _ _ => Raise (OSError "No such file or directory");
  h_disk_io_counters := h_disk_io_counters sample_host;
  h_net_io_counters := h_net_io_counters sample_host;
  h_boot_time := h_boot_time sample_host;
  h_pids := h_pids sample_host;
  h_process_iter := h_process_iter sample_host;
  h_platform := h_platform sample_host |}.

(** ** The remaining endpoints and the handlers *)

(** [s.replace(old, new)]: every occurrence of [old] in [s], found from the
    left and without overlap, becomes [new]; an empty [old] occurs before
    every character and at the end. *)
Fixpoint replace_from (old new : string) (skip : nat) (s : string) : string :=
  match s with
  | EmptyString => EmptyString
  | String c s' =>
      match skip with
      | S k => replace_from old new k s'
      | O =>
          if String.prefix old s
          then new ++ replace_from old new (String.length old - 1) s'
          else String c (replace_from old new 0 s')
      end
  end.

Fixpoint interleave (new s : string) : string :=
  match s with
  | EmptyString => new
  | String c s' => new ++ String c (interleave new s')
  end.

Definition str_replace (s old new : string) : string :=
  match old with
  | EmptyString => interleave new s
  | _ => replace_from old new 0 s
  end.

(** GET / *)
Definition root_endpoints : list (string * value) :=
  [ ("health", VStr "/health");
    ("system", VStr "/system");
    ("metrics", VStr "/metrics");
    ("cpu", VStr "/metrics/cpu");
    ("memory", VStr "/metrics/memory");
    ("disk", VStr "/metrics/disk");
    ("network", VStr "/metrics/network");
    ("processes", VStr "/processes") ].

Definition root : M value :=
  ret (VDict
    [ ("api", VStr "DevOps REST API");
      ("version", VStr "1.0.0");
      ("status", VStr "running");
      ("docs", VStr "/docs");
      ("endpoints", VDict root_endpoints) ]).

(** GET /health *)
Definition health_check : M value :=
  now <- datetime_now ;;
  info <- get_system_info ;;
  uptime_seconds <- lift (subscript info "uptime_seconds") ;;
  ret (VDict
    [ ("status", VStr "healthy");
      ("timestamp", VStr (str_replace (isoformat now) "+00:00" "Z"));
      ("uptime_seconds", uptime_seconds) ]).

(** A [JSONResponse]: its status code and its content. *)
Definition json_response : Type := Z * value.

(** Custom 404 handler; [path] is [request.url.path]. *)
Definition available_endpoints : list value :=
  [ VStr "/"; VStr "/health"; VStr "/system"; VStr "/metrics";
    VStr "/metrics/cpu"; VStr "/metrics/memory"; VStr "/metrics/disk";
    VStr "/metrics/network"; VStr "/processes"; VStr "/docs" ].

Definition not_found_handler (path : string) (exc : exn) : json_response :=
  (404,
   VDict
     [ ("error", VStr "Not Found");
       ("message", VStr ("The endpoint " ++ path ++ " does not exist"));
       ("available_endpoints", VList available_endpoints) ]).

(** Custom 500 handler. *)
Definition internal_error_handler (path : string) (exc : exn) : json_response :=
  (500,
   VDict
     [ ("error", VStr "Internal Server Error");
       ("message", VStr "An unexpected error occurred") ]).

(** The number of entries [l[:n]] has for a list of [len] entries. *)
Definition slice_length (len : nat) (n : Z) : nat :=
  if 0 <=? n then Nat.min (Z.to_nat n) len
  else Z.to_nat (Z.of_nat len + n).

(** The characters of a string. *)
Fixpoint chars (s : string) : list ascii :=
  match s with
  | EmptyString => []
  | String c s' => c :: chars s'
  end.

(** [s] has no character [c]. *)
Definition lacks (c : ascii) (s : string) : bool :=
  forallb (fun x => negb (Ascii.eqb x c)) (chars s).

(** The calls of a successful GET /metrics, in their order. *)
Definition metrics_calls : list call :=
  [ c_now;
    c_boot_time; c_now; c_platform "node"; c_platform "system";
    c_platform "release"; c_platform "machine"; c_platform "python_version";
    c_pids;
    c_cpu_percent 1 false; c_cpu_percent (1 # 10) true;
    c_cpu_count true; c_cpu_count false; c_getloadavg;
    c_virtual_memory; c_swap_memory;
    c_disk_usage "/"; c_disk_io_counters;
    c_net_io_counters;
    c_process_iter ].

(** [round(x or 0, 2)] for an optional float sample, in closed form. *)
Definition rounded_or_zero (x : option Q) : value :=
  match x with
  | None => VInt 0
  | Some q => if Qeq_bool q 0 then VInt 0 else VFloat (round2 q)
  end.

(** The entry of a readable process, in closed form. *)
Definition entry_of (i : pinfo) : value :=
  VDict [ ("pid", VInt (pi_pid i));
          ("name", opt_str (pi_name i));
          ("cpu_percent", rounded_or_zero (pi_cpu_percent i));
          ("memory_percent", rounded_or_zero (pi_memory_percent i));
          ("status", opt_str (pi_status i)) ].

(** The sample table without the process that has exited, and with the
    row of a process that may not be inspected. *)
Definition sample_rows_denied : list (result pinfo) :=
  match sample_rows with
  | p1 :: _ :: rest => p1 :: rest ++ [Raise AccessDenied]
  | _ => []
  end%list.

(** The sample table with a row that raises an exception the loop does not
    expect. *)
Definition sample_rows_broken : list (result pinfo) :=
  (firstn 3 sample_rows ++ Raise (KeyError "cpu_percent") :: skipn 3 sample_rows)%list.

(** ** Variants of the sample host *)


(** The sample host seen from a container: the logical core count is the
    one of the machine, 64, and the per-core samples are those of the two
    cores the container is given. *)
Definition container_host : host := {|
  h_now := h_now sample_host;
  h_cpu_percent := h_cpu_percent sample_host;
  h_cpu_percent_percpu := h_cpu_percent_percpu sample_host;
  h_cpu_count := fun _ logical => Ok (Some (if logical then 64 else 32));
  h_getloadavg := h_getloadavg sample_host;
  h_virtual_memory := h_virtual_memory sample_host;
  h_swap_memory := h_swap_memory sample_host;
  h_disk_usage := h_disk_usage sample_host;
  h_disk_io_counters := h_disk_io_counters sample_host;
  h_net_io_counters := h_net_io_counters sample_host;
  h_boot_time := h_boot_time sample_host;
  h_pids := h_pids sample_host;
  h_process_iter := h_process_iter sample_host;
  h_platform := h_platform sample_host |}.

(** The sample host with a boot time no [datetime] can hold. *)
Definition far_boot_host : host := {|
  h_now := h_now sample_host;
  h_cpu_percent := h_cpu_percent sample_host;
  h_cpu_percent_percpu := h_cpu_percent_percpu sample_host;
  h_cpu_count := h_cpu_count sample_host;
  h_getloadavg := h_getloadavg sample_host;
  h_virtual_memory := h_virtual_memory sample_host;
  h_swap_memory := h_swap_memory sample_host;
  h_disk_usage := h_disk_usage sample_host;
  h_disk_io_counters := h_disk_io_counters sample_host;
  h_net_io_counters := h_net_io_counters sample_host;
  h_boot_time := fun _ => Ok (inject_Z 1000000000000);
  h_pids := h_pids sample_host;
  h_process_iter := h_process_iter sample_host;
  h_platform := h_platform sample_host |}.

(** The sample host on which the disk I/O counters cannot be read. *)
Definition no_diskstats_host : host := {|
  h_now := h_now sample_host;
  h_cpu_percent := h_cpu_percent sample_host;
  h_cpu_percent_percpu := h_cpu_percent_percpu sample_host;
  h_cpu_count := h_cpu_count sample_host;
  h_getloadavg := h_getloadavg sample_host;
  h_virtual_memory := h_virtual_memory sample_host;
  h_swap_memory := h_swap_memory sample_host;
  h_disk_usage := h_disk_usage sample_host;
  h_disk_io_counters := fun _ => Raise (NotImplementedError "no disk statistics");
  h_net_io_counters := h_net_io_counters sample_host;
  h_boot_time := h_boot_time sample_host;
  h_pids := h_pids sample_host;
  h_process_iter := h_process_iter sample_host;
  h_platform := h_platform sample_host |}.


(** The sample host on which the boot time cannot be read. *)
Definition no_boot_time_host : host := {|
  h_now := h_now sample_host;
  h_cpu_percent := h_cpu_percent sample_host;
  h_cpu_percent_percpu := h_cpu_percent_percpu sample_host;
  h_cpu_count := h_cpu_count sample_host;
  h_getloadavg := h_getloadavg sample_host;
  h_virtual_memory := h_virtual_memory sample_host;
  h_swap_memory := h_swap_memory sample_host;
  h_disk_usage := h_disk_usage sample_host;
  h_disk_io_counters := h_disk_io_counters sample_host;
  h_net_io_counters := h_net_io_counters sample_host;
  h_boot_time := fun _ => Raise (OSError "cannot read /proc/stat");
  h_pids := h_pids sample_host;
  h_process_iter := h_process_iter sample_host;
  h_platform := h_platform sample_host |}.

(** The sample host with a given process table. *)
Definition host_with_rows (rows : list (result pinfo)) : host := {|
  h_now := h_now sample_host;
  h_cpu_percent := h_cpu_percent sample_host;
  h_cpu_percent_percpu := h_cpu_percent_percpu sample_host;
  h_cpu_count := h_cpu_count sample_host;
  h_getloadavg := h_getloadavg sample_host;
  h_virtual_memory := h_virtual_memory sample_host;
  h_swap_memory := h_swap_memory sample_host;
  h_disk_usage := h_disk_usage sample_host;
  h_disk_io_counters := h_disk_io_counters sample_host;
  h_net_io_counters := h_net_io_counters sample_host;
  h_boot_time := h_boot_time sample_host;
  h_pids := h_pids sample_host;
  h_process_iter := fun _ => Ok rows;
  h_platform := h_platform sample_host |}.

(** * Properties *)

(** ** The definitions on concrete inputs *)

Example round2_ties_to_even :
  round2 (5 # 1000) = 0 # 100 /\ round2 (15 # 1000) = 2 # 100 /\
  round2 (25 # 1000) = 2 # 100 /\ round2 (99999 # 1000) = 10000 # 100.
Proof. repeat split. Qed.

Example isoformat_leap_day :
  isoformat 1709251199999999 = "2024-02-29T23:59:59.999999+00:00" /\
  isoformat 0 = "1970-01-01T00:00:00+00:00".
Proof. split; reflexivity. Qed.

Example int_total_seconds_truncates :
  int_total_seconds 1999999 0 = 1 /\ int_total_seconds 0 1999999 = -1 /\
  int_total_seconds 999999 0 = 0.
Proof. repeat split. Qed.

Example slice_to_bounds :
  slice_to [1; 2; 3] 2 = [1; 2] /\ slice_to [1; 2; 3] 5 = [1; 2; 3] /\
  slice_to [1; 2; 3] 0 = [] /\ slice_to [1; 2; 3] (-1) = [1; 2] /\
  slice_to [1; 2; 3] (-7) = [].
Proof. repeat split. Qed.

(** The sample table ranked: pid 42 first, then pids 1 and 7, which tie and
    keep the order of the enumeration; the process that has exited is
    absent. *)
Example get_top_processes_sample :
  match fst (get_top_processes 3 sample_host []) with
  | Ok ps => map (fun p => subscript p "pid") ps = [Ok (VInt 42); Ok (VInt 1); Ok (VInt 7)]
  | Raise _ => False
  end.
Proof. reflexivity. Qed.

Example get_disk_sample :
  get_disk "/nope" sample_host [] =
    (Raise (HTTPException 400 "Invalid disk path: /nope"), [c_now; c_disk_usage "/nope"]).
Proof. reflexivity. Qed.

(** ** The stable descending sort *)

Section Sorting.
Context {A : Type}.
Implicit Types (x y : Q * A) (l : list (Q * A)).

Lemma insert_desc_Forall (P : Q * A -> Prop) x l :
  P x -> Forall P l -> Forall P (insert_desc x l).
Proof.
  intros Hx Hl. induction Hl as [|y l Hy Hl IH]; simpl.
  - constructor; [assumption | constructor].
  - destruct (Qle_bool (fst y) (fst x)); repeat constructor; assumption.
Qed.

Lemma insert_desc_sorted x l :
  StronglySorted desc l -> StronglySorted desc (insert_desc x l).
Proof.
  induction 1 as [|y l Hs IH Hy]; simpl.
  - repeat constructor.
  - destruct (Qle_bool (fst y) (fst x)) eqn:E.
    + apply Qle_bool_iff in E.
      constructor; [constructor; assumption |].
      constructor; [exact E |].
      eapply Forall_impl; [| exact Hy].
      intros z Hz. unfold desc in *. eapply Qle_trans; eassumption.
    + constructor; [exact IH |].
      apply insert_desc_Forall; [| exact Hy].
      unfold desc. apply Qlt_le_weak, Qnot_le_lt.
      intro H. apply Qle_bool_iff in H. congruence.
Qed.

Lemma sort_desc_sorted l : StronglySorted desc (sort_desc l).
Proof.
  induction l as [|x l IH]; simpl; [constructor | now apply insert_desc_sorted].
Qed.

Lemma insert_desc_perm x l : Permutation (x :: l) (insert_desc x l).
Proof.
  induction l as [|y l IH]; simpl; [reflexivity |].
  destruct (Qle_bool (fst y) (fst x)); [reflexivity |].
  rewrite perm_swap. now constructor.
Qed.

Lemma sort_desc_perm l : Permutation l (sort_desc l).
Proof.
  induction l as [|x l IH]; simpl; [constructor |].
  rewrite <- insert_desc_perm. now constructor.
Qed.

Lemma sort_desc_length l : List.length (sort_desc l) = List.length l.
Proof. symmetry. apply Permutation_length, sort_desc_perm. Qed.

(** Insertion puts the new element before the elements of the same key. *)
Lemma insert_desc_stable k x l :
  filter (with_key k) (insert_desc x l) = filter (with_key k) (x :: l).
Proof.
  induction l as [|y l IH]; [reflexivity |].
  cbn [insert_desc]. destruct (Qle_bool (fst y) (fst x)) eqn:E; [reflexivity |].
  cbn [filter] in *. rewrite IH.
  destruct (with_key k x) eqn:Ex; [| reflexivity].
  destruct (with_key k y) eqn:Ey; [| reflexivity].
  exfalso. unfold with_key in *.
  apply Qeq_bool_iff in Ex, Ey.
  assert (H : Qle_bool (fst y) (fst x) = true)
    by (apply Qle_bool_iff; rewrite Ex, Ey; apply Qle_refl).
  congruence.
Qed.

Lemma sort_desc_stable k l :
  filter (with_key k) (sort_desc l) = filter (with_key k) l.
Proof.
  induction l as [|x l IH]; [reflexivity |].
  cbn [sort_desc]. rewrite insert_desc_stable. cbn [filter]. now rewrite IH.
Qed.

(** Two descending lists that select the same elements, in the same order,
    for every key are equal. *)
Lemma sorted_stable_eq l1 : forall l2,
  StronglySorted desc l1 -> StronglySorted desc l2 ->
  (forall k, filter (with_key k) l1 = filter (with_key k) l2) ->
  l1 = l2.
Proof.
  induction l1 as [|a l1 IH]; intros l2 S1 S2 F.
  - destruct l2 as [|b l2]; [reflexivity |].
    specialize (F (fst b)). cbn in F. unfold with_key in F.
    rewrite (proj2 (Qeq_bool_iff _ _) (Qeq_refl _)) in F. discriminate.
  - destruct l2 as [|b l2].
    + specialize (F (fst a)). cbn in F. unfold with_key in F.
      rewrite (proj2 (Qeq_bool_iff _ _) (Qeq_refl _)) in F. discriminate.
    + inversion S1 as [|? ? S1' H1]; subst. inversion S2 as [|? ? S2' H2]; subst.
      assert (Hin : forall (u : Q * A) l, with_key (fst u) u = true)
        by (intros; apply Qeq_bool_iff, Qeq_refl).
      assert (Ha : In a (b :: l2)).
      { assert (In a (filter (with_key (fst a)) (b :: l2))) as Hf.
        { rewrite <- F. cbn [filter]. rewrite (Hin a l1). now left. }
        apply filter_In in Hf. tauto. }
      assert (Hb : In b (a :: l1)).
      { assert (In b (filter (with_key (fst b)) (a :: l1))) as Hf.
        { rewrite F. cbn [filter]. rewrite (Hin b l2). now left. }
        apply filter_In in Hf. tauto. }
      assert (Hab : (fst a <= fst b)%Q).
      { destruct Ha as [<- | Ha]; [apply Qle_refl |].
        rewrite Forall_forall in H2. exact (H2 _ Ha). }
      assert (Hba : (fst b <= fst a)%Q).
      { destruct Hb as [<- | Hb]; [apply Qle_refl |].
        rewrite Forall_forall in H1. exact (H1 _ Hb). }
      assert (E : with_key (fst a) b = true)
        by (apply Qeq_bool_iff, Qle_antisym; assumption).
      pose proof (F (fst a)) as Fa. cbn [filter] in Fa.
      rewrite (Hin a l1), E in Fa. injection Fa as -> _.
      f_equal. apply IH; try assumption.
      intro k. specialize (F k). cbn [filter] in F.
      destruct (with_key k b); [now injection F | exact F].
Qed.

(** A stable descending sort has one possible result: whatever returns a
    descending list that keeps, for every key, the elements of that key
    in their order, returns [sort_desc l]. *)
Lemma stable_sort_unique l l' :
  StronglySorted desc l' ->
  (forall k, filter (with_key k) l' = filter (with_key k) l) ->
  l' = sort_desc l.
Proof.
  intros S F. apply sorted_stable_eq; [exact S | apply sort_desc_sorted |].
  intro k. now rewrite F, sort_desc_stable.
Qed.
End Sorting.

(** ** Slices *)

Lemma slice_to_firstn {A : Type} (l : list A) (n : Z) :
  exists m, slice_to l n = firstn m l.
Proof. unfold slice_to. destruct (0 <=? n); eauto. Qed.

Lemma slice_to_length_limit {A : Type} (l : list A) (n : Z) :
  0 <= n -> Z.of_nat (List.length (slice_to l n)) <= n.
Proof.
  intro H. unfold slice_to. rewrite (proj2 (Z.leb_le 0 n) H).
  rewrite length_firstn. lia.
Qed.

Lemma slice_to_length {A : Type} (l : list A) (n : Z) :
  (List.length (slice_to l n) <= List.length l)%nat.
Proof.
  destruct (slice_to_firstn l n) as [m ->]. rewrite length_firstn. lia.
Qed.

(** A slice that is not shorter than the list is the whole list. *)
Lemma slice_to_all {A : Type} (l : list A) (n : Z) :
  Z.of_nat (List.length l) <= n -> slice_to l n = l.
Proof.
  intro H. unfold slice_to.
  replace (0 <=? n) with true by (symmetry; apply Z.leb_le; lia).
  apply firstn_all2. lia.
Qed.

Lemma slice_to_prefix {A : Type} (l : list A) (n : Z) :
  exists rest, l = (slice_to l n ++ rest)%list.
Proof.
  destruct (slice_to_firstn l n) as [m ->].
  exists (skipn m l). symmetry. apply firstn_skipn.
Qed.

Lemma StronglySorted_app_l {A : Type} (R : A -> A -> Prop) (l1 l2 : list A) :
  StronglySorted R (l1 ++ l2) -> StronglySorted R l1.
Proof.
  induction l1 as [|a l1 IH]; cbn; intro H; [constructor |].
  inversion H as [|? ? Hs Hf]; subst. constructor; [now apply IH |].
  apply Forall_app in Hf. tauto.
Qed.

(** ** Keys and entries *)

Lemma decorate_spec {A : Type} (key : A -> result Q) (l : list A) :
  forall kl, decorate key l = Ok kl ->
    map snd kl = l /\ Forall (fun p => key (snd p) = Ok (fst p)) kl.
Proof.
  induction l as [|x l IH]; cbn; intros kl H.
  - injection H as <-. split; constructor.
  - destruct (key x) as [k|] eqn:Ek; [| discriminate].
    destruct (decorate key l) as [kl'|]; [| discriminate].
    injection H as <-. destruct (IH _ eq_refl) as [Hm Hf].
    split; [cbn; now rewrite Hm | constructor; assumption].
Qed.

Lemma decorate_total {A : Type} (key : A -> result Q) (l : list A) :
  Forall (fun x => exists k, key x = Ok k) l -> exists kl, decorate key l = Ok kl.
Proof.
  induction 1 as [|x l [k Hk] _ [kl IH]]; cbn; [eauto |].
  rewrite Hk, IH. eauto.
Qed.

Lemma py_round2_or_zero (x : option Q) :
  exists v k, py_round2 (or_zero x) = Ok v /\ as_number v = Ok k.
Proof.
  destruct x as [q|]; cbn; [destruct (Qeq_bool q 0) |]; cbn;
    do 2 eexists; split; reflexivity.
Qed.

(** The entry of a readable process is built, and the sort can read its
    cpu_percent. *)
Lemma proc_entry_Ok (i : pinfo) :
  exists d k, proc_entry (Ok i) = Ok d /\ cpu_key d = Ok k.
Proof.
  cbn [proc_entry].
  destruct (py_round2_or_zero (pi_cpu_percent i)) as (c & k & -> & Hk).
  destruct (py_round2_or_zero (pi_memory_percent i)) as (m & _ & -> & _).
  eexists. exists k. split; [reflexivity |]. exact Hk.
Qed.

Lemma proc_entry_keyed (p : result pinfo) (d : value) :
  proc_entry p = Ok d -> exists k, cpu_key d = Ok k.
Proof.
  destruct p as [i|e]; [| discriminate].
  destruct (proc_entry_Ok i) as (d' & k & -> & Hk).
  intro H. injection H as <-. eauto.
Qed.

Lemma collect_procs_spec (rows : list (result pinfo)) :
  forall procs, collect_procs rows = Ok procs ->
    (List.length procs <= List.length rows)%nat /\
    Forall (fun d => exists k, cpu_key d = Ok k) procs.
Proof.
  induction rows as [|p rows IH]; cbn [collect_procs]; intros procs H.
  - injection H as <-. split; [reflexivity | constructor].
  - destruct (proc_entry p) as [d|e] eqn:Ep.
    + destruct (collect_procs rows) as [ds|]; [| discriminate].
      injection H as <-. destruct (IH _ eq_refl) as [Hl Hf].
      split; [cbn; lia |]. constructor; [| exact Hf].
      eapply proc_entry_keyed; eassumption.
    + destruct e; try discriminate;
        (destruct (IH _ H) as [Hl Hf]; split; [cbn; lia | exact Hf]).
Qed.

(** A table whose rows are readable or passed over is walked to its end. *)
Lemma collect_procs_total (rows : list (result pinfo)) :
  forallb table_row rows = true -> exists procs, collect_procs rows = Ok procs.
Proof.
  induction rows as [|p rows IH]; cbn [forallb collect_procs]; [eauto |].
  intro H. apply andb_true_iff in H as [Hp Hr].
  destruct (IH Hr) as [procs Hprocs]. rewrite Hprocs.
  destruct p as [i|e].
  - destruct (proc_entry_Ok i) as (d & _ & -> & _). eauto.
  - cbn. destruct e; try discriminate; eauto.
Qed.

(** As many entries as there are readable rows. *)
Lemma collect_procs_length (rows : list (result pinfo)) :
  forall procs, collect_procs rows = Ok procs ->
    List.length procs = List.length (filter readable rows).
Proof.
  induction rows as [|p rows IH]; cbn [collect_procs filter readable]; intros procs H.
  - now injection H as <-.
  - destruct p as [i|e].
    + destruct (proc_entry_Ok i) as (d & _ & Hd & _). rewrite Hd in H.
      destruct (collect_procs rows) as [ds|]; [| discriminate].
      injection H as <-. cbn. f_equal. now apply IH.
    + cbn in H. destruct e; try discriminate; now apply IH.
Qed.

(** ** Ranking of the processes *)

Lemma keyed_sorted_map (kl : list (Q * value)) :
  Forall (fun p => cpu_key (snd p) = Ok (fst p)) kl ->
  StronglySorted desc kl -> StronglySorted cpu_desc (map snd kl).
Proof.
  intros Hk Hs. induction Hs as [|p kl Hs IH Hp]; cbn; [constructor |].
  inversion Hk as [|? ? Kp Kl]; subst.
  constructor; [now apply IH |].
  apply Forall_map. rewrite Forall_forall in *.
  intros q Hq. specialize (Hp q Hq). specialize (Kl q Hq).
  unfold cpu_desc, cpu_percent_of, desc in *. now rewrite Kp, Kl.
Qed.

Lemma keyed_filter_map (k : Q) (kl : list (Q * value)) :
  Forall (fun p => cpu_key (snd p) = Ok (fst p)) kl ->
  filter (cpu_is k) (map snd kl) = map snd (filter (with_key k) kl).
Proof.
  induction 1 as [|p kl Kp _ IH]; cbn; [reflexivity |].
  unfold cpu_is at 1, cpu_percent_of, with_key at 1. rewrite Kp.
  destruct (Qeq_bool (fst p) k); cbn; now rewrite IH.
Qed.

(** What [sorted(procs, key=..., reverse=True)] returns on entries whose
    cpu_percent can be read: a descending list in which the entries of one
    cpu_percent keep the order they have in [procs]. *)
Lemma sorted_reverse_cpu (procs : list value) :
  Forall (fun d => exists k, cpu_key d = Ok k) procs ->
  exists ranked,
    sorted_reverse cpu_key procs = Ok ranked /\
    List.length ranked = List.length procs /\
    StronglySorted cpu_desc ranked /\
    forall k, filter (cpu_is k) ranked = filter (cpu_is k) procs.
Proof.
  intro Hk. destruct (decorate_total _ _ Hk) as [kl Hkl].
  destruct (decorate_spec _ _ _ Hkl) as [Hm Hf].
  assert (Hs : Forall (fun p => cpu_key (snd p) = Ok (fst p)) (sort_desc kl)).
  { rewrite Forall_forall in *. intros p Hp. apply Hf.
    eapply Permutation_in; [symmetry; apply sort_desc_perm | exact Hp]. }
  exists (map snd (sort_desc kl)). unfold sorted_reverse. rewrite Hkl.
  split; [reflexivity |]. split; [| split].
  - rewrite length_map, sort_desc_length, <- Hm. now rewrite length_map.
  - apply keyed_sorted_map; [exact Hs | apply sort_desc_sorted].
  - intro k. rewrite keyed_filter_map, sort_desc_stable by assumption.
    rewrite <- keyed_filter_map by assumption. now rewrite Hm.
Qed.

Lemma get_top_processes_run (h : host) (t : log) (limit : Z)
    (rows : list (result pinfo)) (procs ranked : list value) :
  h_process_iter h (List.length t) = Ok rows ->
  collect_procs rows = Ok procs ->
  sorted_reverse cpu_key procs = Ok ranked ->
  get_top_processes limit h t = (Ok (slice_to ranked limit), (t ++ [c_process_iter])%list).
Proof.
  intros Hr Hp Hs.
  unfold get_top_processes, bind, psutil_process_iter, sys, lift, ret.
  now rewrite Hr, Hp, Hs.
Qed.

(** On a table whose rows are readable or passed over, the enumeration
    yields entries that the sort ranks and the slice truncates. *)
Lemma get_top_processes_Ok (h : host) (t : log) (limit : Z)
    (rows : list (result pinfo)) :
  h_process_iter h (List.length t) = Ok rows ->
  forallb table_row rows = true ->
  exists procs ranked,
    collect_procs rows = Ok procs /\
    sorted_reverse cpu_key procs = Ok ranked /\
    get_top_processes limit h t
      = (Ok (slice_to ranked limit), (t ++ [c_process_iter])%list).
Proof.
  intros Hr Ht.
  destruct (collect_procs_total rows Ht) as [procs Hp].
  destruct (collect_procs_spec rows procs Hp) as [_ Hk].
  destruct (sorted_reverse_cpu procs Hk) as (ranked & Hs & _).
  exists procs, ranked. repeat split; try assumption.
  eapply get_top_processes_run; eassumption.
Qed.

(** C1 (as amended).  For every limit and every process table,
    [get_top_processes] returns a list that is no longer than the number of
    processes enumerated (nor than the number of entries that could be
    read), that is no longer than [limit] when [limit] is not negative, that
    is sorted in descending order of cpu_percent, and in which the entries
    of equal cpu_percent appear in the order of the enumeration: for every
    value, the entries of that cpu_percent in the result are the first ones
    of that cpu_percent in the enumeration, in the same order. *)
Theorem get_top_processes_ranked (h : host) (t : log) (limit : Z)
    (rows : list (result pinfo)) :
  h_process_iter h (List.length t) = Ok rows ->
  forallb table_row rows = true ->
  exists procs ps,
    collect_procs rows = Ok procs /\
    get_top_processes limit h t = (Ok ps, (t ++ [c_process_iter])%list) /\
    (0 <= limit -> Z.of_nat (List.length ps) <= limit) /\
    (List.length ps <= List.length procs <= List.length rows)%nat /\
    StronglySorted cpu_desc ps /\
    forall k, exists rest,
      filter (cpu_is k) procs = (filter (cpu_is k) ps ++ rest)%list.
Proof.
  intros Hr Ht.
  destruct (collect_procs_total rows Ht) as [procs Hp].
  destruct (collect_procs_spec rows procs Hp) as [Hlen Hk].
  destruct (sorted_reverse_cpu procs Hk) as (ranked & Hs & Hl & Hsorted & Hstable).
  exists procs, (slice_to ranked limit).
  split; [exact Hp |].
  split; [now apply get_top_processes_run with rows procs |].
  split; [apply slice_to_length_limit |].
  split; [pose proof (slice_to_length ranked limit); lia |].
  destruct (slice_to_prefix ranked limit) as [rest Hrest].
  split.
  - apply StronglySorted_app_l with rest. now rewrite <- Hrest.
  - intro k. exists (filter (cpu_is k) rest).
    now rewrite <- Hstable, Hrest at 1; rewrite filter_app.
Qed.

Lemma get_top_processes_ranked_witness :
  exists procs ps,
    collect_procs sample_rows = Ok procs /\
    get_top_processes 2 sample_host [] = (Ok ps, [c_process_iter]) /\
    (0 <= 2 -> Z.of_nat (List.length ps) <= 2) /\
    (List.length ps <= List.length procs <= List.length sample_rows)%nat /\
    StronglySorted cpu_desc ps /\
    forall k, exists rest,
      filter (cpu_is k) procs = (filter (cpu_is k) ps ++ rest)%list.
Proof.
  apply (get_top_processes_ranked sample_host [] 2 sample_rows); reflexivity.
Defined.

(** C1 (as stated) fails for a negative limit: [procs[:-1]] drops the last
    entry only, and no list has a length of at most [-1]. *)
Lemma get_top_processes_negative_limit :
  exists ps,
    fst (get_top_processes (-1) sample_host []) = Ok ps /\
    List.length ps = 3%nat /\
    ~ Z.of_nat (List.length ps) <= -1.
Proof.
  eexists. split; [vm_compute; reflexivity |]. split; [reflexivity | cbn; lia].
Qed.

(** ** GET /processes *)

Lemma get_processes_rejected (h : host) (t : log) (limit : Z) :
  50 < limit ->
  get_processes limit h t = (Raise (HTTPException 400 "Limit cannot exceed 50"), t).
Proof.
  intro H. unfold get_processes.
  now rewrite (proj2 (Z.ltb_lt 50 limit) H).
Qed.

Lemma get_processes_run (h : host) (t : log) (limit : Z) (ps : list value) :
  limit <= 50 ->
  get_top_processes limit h (t ++ [c_now])%list
    = (Ok ps, ((t ++ [c_now]) ++ [c_process_iter])%list) ->
  get_processes limit h t =
    (Ok (VDict [ ("timestamp", VStr (isoformat (h_now h (List.length t))));
                 ("count", VInt limit);
                 ("processes", VList ps) ]),
     (t ++ [c_now; c_process_iter])%list).
Proof.
  intros Hl Hp. unfold get_processes.
  replace (50 <? limit) with false by (symmetry; apply Z.ltb_ge; exact Hl).
  unfold bind, timestamp_now, datetime_now, sys, ret. cbn beta iota.
  unfold bind. rewrite Hp. now rewrite <- app_assoc.
Qed.

(** C2 (as amended).  The limit of GET /processes is checked against its
    upper bound before anything else: a request with limit > 50 raises the
    HTTP 400 error "Limit cannot exceed 50" and the log of calls to the
    operating system is left as it was, the clock included; a request with
    a limit from 1 to 50 is served, 1 included, from one reading of the
    clock followed by one enumeration of the process table. *)
Theorem get_processes_limit (h : host) (t : log) (limit : Z) :
  (50 < limit ->
   get_processes limit h t =
     (Raise (HTTPException 400 "Limit cannot exceed 50"), t)) /\
  (1 <= limit <= 50 ->
   forall rows,
     h_process_iter h (S (List.length t)) = Ok rows ->
     forallb table_row rows = true ->
     exists body,
       get_processes limit h t = (Ok body, (t ++ [c_now; c_process_iter])%list)).
Proof.
  split; [apply get_processes_rejected |].
  intros [_ Hl] rows Hr Ht.
  assert (Hr' : h_process_iter h (List.length (t ++ [c_now])%list) = Ok rows)
    by (rewrite length_app, Nat.add_comm; exact Hr).
  destruct (get_top_processes_Ok h _ limit rows Hr' Ht) as (_ & ranked & _ & _ & Hp).
  eexists. apply get_processes_run; [exact Hl | exact Hp].
Qed.

Lemma get_processes_limit_witness :
  get_processes 51 sample_host [] =
    (Raise (HTTPException 400 "Limit cannot exceed 50"), []) /\
  exists body,
    get_processes 50 sample_host [] = (Ok body, [c_now; c_process_iter]).
Proof.
  split.
  - apply (proj1 (get_processes_limit sample_host [] 51)). lia.
  - apply (proj2 (get_processes_limit sample_host [] 50) ltac:(lia) sample_rows);
      reflexivity.
Defined.

(** C2 (as stated) fails at limit = 1, which lies outside (1, 50] and is
    served. *)
Lemma get_processes_limit_one_served :
  ~ (1 < 1 <= 50) /\
  exists body, get_processes 1 sample_host [] = (Ok body, [c_now; c_process_iter]).
Proof.
  split; [lia |]. eexists. vm_compute. reflexivity.
Qed.

(** C10.  For every request GET /processes that is accepted (limit <= 50),
    the count of the response is the limit that was requested, whatever the
    number of processes listed; when fewer than [limit] entries could be
    read from the process table (there is one entry for each readable
    row), all of them are listed and the count differs from the length of
    the list. *)
Theorem get_processes_count (h : host) (t : log) (limit : Z)
    (rows : list (result pinfo)) :
  limit <= 50 ->
  h_process_iter h (S (List.length t)) = Ok rows ->
  forallb table_row rows = true ->
  exists timestamp procs ps,
    collect_procs rows = Ok procs /\
    List.length procs = List.length (filter readable rows) /\
    get_processes limit h t =
      (Ok (VDict [ ("timestamp", timestamp);
                   ("count", VInt limit);
                   ("processes", VList ps) ]),
       (t ++ [c_now; c_process_iter])%list) /\
    (Z.of_nat (List.length procs) < limit ->
     List.length ps = List.length procs /\ VInt limit <> VInt (Z.of_nat (List.length ps))).
Proof.
  intros Hl Hr Ht.
  assert (Hr' : h_process_iter h (List.length (t ++ [c_now])%list) = Ok rows)
    by (rewrite length_app, Nat.add_comm; exact Hr).
  destruct (collect_procs_total rows Ht) as [procs Hp].
  destruct (collect_procs_spec rows procs Hp) as [_ Hk].
  destruct (sorted_reverse_cpu procs Hk) as (ranked & Hs & Hlen & _).
  exists (VStr (isoformat (h_now h (List.length t)))), procs, (slice_to ranked limit).
  split; [exact Hp |]. split; [now apply collect_procs_length |]. split.
  - apply get_processes_run; [exact Hl |].
    eapply get_top_processes_run; eassumption.
  - intro Hfew. rewrite slice_to_all by lia.
    split; [exact Hlen |]. intro E. injection E as E. lia.
Qed.

Lemma get_processes_count_witness :
  exists timestamp procs ps,
    collect_procs sample_rows = Ok procs /\
    List.length procs = 4%nat /\
    get_processes 10 sample_host [] =
      (Ok (VDict [ ("timestamp", timestamp);
                   ("count", VInt 10);
                   ("processes", VList ps) ]),
       [c_now; c_process_iter]) /\
    (Z.of_nat (List.length procs) < 10 ->
     List.length ps = List.length procs /\ VInt 10 <> VInt (Z.of_nat (List.length ps))).
Proof.
  apply (get_processes_count sample_host [] 10 sample_rows);
    [lia | reflexivity | reflexivity].
Defined.

(** ** What a successful collection has read *)

Ltac run_in H :=
  unfold get_cpu_info, get_memory_info, get_disk_info, get_network_info,
    get_system_info, timestamp_now, datetime_now, platform,
    psutil_cpu_percent, psutil_cpu_percent_percpu, psutil_cpu_count,
    psutil_getloadavg, psutil_virtual_memory, psutil_swap_memory,
    psutil_disk_usage, psutil_disk_io_counters, psutil_net_io_counters,
    psutil_boot_time, psutil_pids, psutil_process_iter,
    bind, try_except, sys, ret, raise, lift in H;
  cbn beta iota in H;
  repeat match type of H with
    | context [match ?x with Ok _ => _ | Raise _ => _ end] =>
        let E := fresh "E" in
        destruct x eqn:E; cbn beta iota in H; try discriminate H
    | context [match ?x with (_, _) => _ end] =>
        destruct x; cbn beta iota in H
    end;
  rewrite ?length_app in *; cbn [List.length] in *;
  rewrite ?Nat.add_1_r in *.

Lemma get_cpu_info_inv (h : host) (t t' : log) (v : value) :
  get_cpu_info h t = (Ok v, t') ->
  exists percent percpu count physical l1 l5 l15,
    h_cpu_percent h (List.length t) 1 = Ok percent /\
    h_cpu_percent_percpu h (S (List.length t)) (1 # 10) = Ok percpu /\
    h_cpu_count h (S (S (List.length t))) true = Ok count /\
    v = VDict
      [ ("percent", VFloat (round2 percent));
        ("percent_per_core", VList (map (fun p => VFloat (round2 p)) percpu));
        ("core_count", opt_int count);
        ("core_count_physical", opt_int physical);
        ("load_avg", VList [VFloat (round2 l1); VFloat (round2 l5); VFloat (round2 l15)]) ].
Proof.
  intro H. run_in H. injection H as <- _.
  repeat eexists; eassumption.
Qed.

Lemma get_memory_info_inv (h : host) (t t' : log) (v : value) :
  get_memory_info h t = (Ok v, t') ->
  exists ram swap,
    h_virtual_memory h (List.length t) = Ok ram /\
    h_swap_memory h (S (List.length t)) = Ok swap /\
    v = VDict
      [ ("ram", VDict
          [ ("total_gb", round_gb (vm_total ram));
            ("used_gb", round_gb (vm_used ram));
            ("available_gb", round_gb (vm_available ram));
            ("percent", VFloat (round2 (vm_percent ram))) ]);
        ("swap", VDict
          [ ("total_gb", round_gb (sw_total swap));
            ("used_gb", round_gb (sw_used swap));
            ("percent", VFloat (round2 (sw_percent swap))) ]) ].
Proof.
  intro H. run_in H. injection H as <- _.
  repeat eexists; eassumption.
Qed.

Lemma get_disk_info_inv (h : host) (t t' : log) (path : string) (v : value) :
  get_disk_info path h t = (Ok v, t') ->
  exists usage io extra,
    h_disk_usage h (List.length t) path = Ok usage /\
    h_disk_io_counters h (S (List.length t)) = Ok io /\
    t' = (t ++ [c_disk_usage path; c_disk_io_counters])%list /\
    (extra = [] \/ exists c, extra = [("io", c)]) /\
    v = VDict
      ([ ("path", VStr path);
         ("total_gb", round_gb (du_total usage));
         ("used_gb", round_gb (du_used usage));
         ("free_gb", round_gb (du_free usage));
         ("percent", VFloat (round2 (du_percent usage))) ] ++ extra)%list.
Proof.
  intro H. run_in H. injection H as <- <-.
  exists a, a0. destruct a0 as [c|].
  - eexists [("io", _)]. rewrite <- app_assoc. repeat split; eauto.
  - exists []. rewrite <- app_assoc. repeat split; eauto.
Qed.

Lemma get_disk_info_raises (h : host) (t t' : log) (path : string) (e : exn) :
  get_disk_info path h t = (Raise e, t') ->
  e = HTTPException 400 ("Invalid disk path: " ++ path).
Proof.
  unfold get_disk_info, try_except, raise, bind, psutil_disk_usage,
    psutil_disk_io_counters, sys, ret.
  cbn beta iota.
  destruct (h_disk_usage h (List.length t) path); cbn beta iota.
  - destruct (h_disk_io_counters h _); cbn beta iota; intro H; [discriminate |].
    now injection H as <- _.
  - intro H. now injection H as <- _.
Qed.

Lemma get_network_info_inv (h : host) (t t' : log) (v : value) :
  get_network_info h t = (Ok v, t') ->
  exists net,
    v = VDict
      [ ("bytes_sent_mb", round_mb (bytes_sent net));
        ("bytes_recv_mb", round_mb (bytes_recv net));
        ("packets_sent", VInt (packets_sent net));
        ("packets_recv", VInt (packets_recv net));
        ("errors_in", VInt (errin net));
        ("errors_out", VInt (errout net)) ].
Proof.
  intro H. run_in H. injection H as <- _. eauto.
Qed.

Lemma get_system_info_inv (h : host) (t t' : log) (v : value) :
  get_system_info h t = (Ok v, t') ->
  exists bt boot_time pids,
    h_boot_time h (List.length t) = Ok bt /\
    fromtimestamp bt = Ok boot_time /\
    h_pids h (7 + List.length t) = Ok pids /\
    t' = (t ++ [ c_boot_time; c_now; c_platform "node"; c_platform "system";
                 c_platform "release"; c_platform "machine";
                 c_platform "python_version"; c_pids ])%list /\
    v = VDict
      [ ("hostname", VStr (h_platform h (2 + List.length t) "node"));
        ("os", VStr (h_platform h (3 + List.length t) "system"));
        ("os_release", VStr (h_platform h (4 + List.length t) "release"));
        ("architecture", VStr (h_platform h (5 + List.length t) "machine"));
        ("python_version", VStr (h_platform h (6 + List.length t) "python_version"));
        ("boot_time", VStr (isoformat boot_time));
        ("uptime_seconds",
         VInt (int_total_seconds (h_now h (1 + List.length t)) boot_time));
        ("process_count", VInt (Z.of_nat (List.length pids))) ].
Proof.
  unfold get_system_info, bind, lift, psutil_boot_time, datetime_now, platform,
    psutil_pids, sys, ret.
  cbn beta iota.
  destruct (h_boot_time h (List.length t)) as [bt|]; cbn beta iota; [| discriminate].
  destruct (fromtimestamp bt) as [boot_time|] eqn:Eb; cbn beta iota; [| discriminate].
  rewrite ?length_app; cbn [List.length]; rewrite ?Nat.add_1_r.
  destruct (h_pids h _) as [pids|] eqn:Ep; cbn beta iota; [| discriminate].
  intro H. injection H as <- <-.
  exists bt, boot_time, pids. cbn [Nat.add].
  repeat split; try assumption; try reflexivity.
  now rewrite <- !app_assoc.
Qed.

(** ** Rounding keeps bounds *)

Lemma round_half_even_bounds (q : Q) (lo hi : Z) :
  (inject_Z lo <= q)%Q -> (q <= inject_Z hi)%Q ->
  lo <= round_half_even q <= hi.
Proof.
  intros Hlo Hhi.
  assert (Hf : lo <= Qfloor q <= hi).
  { split.
    - rewrite <- (Qfloor_Z lo). now apply Qfloor_resp_le.
    - rewrite <- (Qfloor_Z hi). now apply Qfloor_resp_le. }
  assert (Hup : (inject_Z (Qfloor q) < q)%Q -> Qfloor q + 1 <= hi).
  { intro H. assert (inject_Z (Qfloor q) < inject_Z hi)%Q as H'
      by (eapply Qlt_le_trans; eassumption).
    rewrite <- Zlt_Qlt in H'. lia. }
  unfold round_half_even. cbv zeta.
  destruct (Qcompare (q - inject_Z (Qfloor q)) (1 # 2)) eqn:E.
  - destruct (Z.even (Qfloor q)); [lia |].
    apply Qeq_alt in E. split; [lia |]. apply Hup.
    apply Qlt_minus_iff. rewrite E. reflexivity.
  - lia.
  - apply Qgt_alt in E. split; [lia |]. apply Hup.
    apply Qlt_minus_iff. eapply Qlt_trans; [| exact E]. reflexivity.
Qed.

Lemma round_half_even_error (q : Q) :
  (inject_Z (round_half_even q) - q <= 1 # 2)%Q /\
  (q - inject_Z (round_half_even q) <= 1 # 2)%Q.
Proof.
  pose proof (Qfloor_le q) as Hlo. pose proof (Qlt_floor q) as Hhi.
  rewrite inject_Z_plus in Hhi. change (inject_Z 1) with 1%Q in Hhi.
  unfold round_half_even. cbv zeta.
  destruct (Qcompare (q - inject_Z (Qfloor q)) (1 # 2)) eqn:E.
  - apply Qeq_alt in E.
    destruct (Z.even (Qfloor q));
      rewrite ?inject_Z_plus; change (inject_Z 1) with 1%Q; split; lra.
  - apply Qlt_alt in E. split; lra.
  - apply Qgt_alt in E. rewrite inject_Z_plus. change (inject_Z 1) with 1%Q.
    split; lra.
Qed.


Lemma round2_in_percent (q : Q) : in_percent q -> in_percent (round2 q).
Proof.
  intros [H0 H100].
  assert (H : 0 <= round_half_even (q * 100) <= 10000).
  { apply round_half_even_bounds.
    - change (inject_Z 0) with (0 * 100)%Q. apply Qmult_le_compat_r; [exact H0 | discriminate].
    - change (inject_Z 10000) with (100 * 100)%Q. apply Qmult_le_compat_r; [exact H100 | discriminate]. }
  unfold in_percent, round2, Qle. cbn. lia.
Qed.

Lemma sample_host_percent_sources : percent_sources sample_host.
Proof.
  split; cbn; intros.
  - injection H as <-. split; discriminate.
  - injection H as <-. repeat constructor; discriminate.
  - injection H as <-. split; discriminate.
  - injection H as <-. split; discriminate.
  - destruct (_ || _); [| discriminate]. injection H as <-. split; discriminate.
Qed.

(** ** Disk *)

Ltac run_goal :=
  unfold get_cpu_info, get_memory_info, get_disk_info, get_network_info,
    get_system_info, timestamp_now, datetime_now, platform,
    psutil_cpu_percent, psutil_cpu_percent_percpu, psutil_cpu_count,
    psutil_getloadavg, psutil_virtual_memory, psutil_swap_memory,
    psutil_disk_usage, psutil_disk_io_counters, psutil_net_io_counters,
    psutil_boot_time, psutil_pids, psutil_process_iter,
    bind, try_except, sys, ret, raise, lift;
  cbn beta iota;
  rewrite ?length_app; cbn [List.length]; rewrite ?Nat.add_1_r.

(** C5.  For every path that cannot be stat'ed ([psutil.disk_usage] raises,
    whatever the exception), [get_disk_info] raises the HTTP 400 error whose
    detail is "Invalid disk path: " followed by the path itself, without
    reading the I/O counters; and for every path, no other exception ever
    leaves [get_disk_info]. *)
Theorem get_disk_info_invalid_path (h : host) (t : log) (path : string) :
  (forall e,
     h_disk_usage h (List.length t) path = Raise e ->
     get_disk_info path h t =
       (Raise (HTTPException 400 ("Invalid disk path: " ++ path)),
        (t ++ [c_disk_usage path])%list)) /\
  (forall e t',
     get_disk_info path h t = (Raise e, t') ->
     e = HTTPException 400 ("Invalid disk path: " ++ path)).
Proof.
  split.
  - intros e H. run_goal. now rewrite H.
  - intros e t'. apply get_disk_info_raises.
Qed.

Lemma get_disk_info_invalid_path_witness :
  get_disk_info "/this/does/not/exist" sample_host [] =
    (Raise (HTTPException 400 "Invalid disk path: /this/does/not/exist"),
     [c_disk_usage "/this/does/not/exist"]).
Proof.
  apply (proj1 (get_disk_info_invalid_path sample_host [] "/this/does/not/exist")
           (OSError "No such file or directory")).
  reflexivity.
Defined.

(** C6.  For every path that can be stat'ed, [get_disk_info] returns a
    dictionary whose "path" is the path that was requested, unchanged (the
    I/O counters are read inside the same [try]: the dictionary is returned
    on a host on which that reading does not raise); and every dictionary
    [get_disk_info] returns has the requested path as its "path". *)
Theorem get_disk_info_echoes_path (h : host) (t : log) (path : string) :
  (forall usage io,
     h_disk_usage h (List.length t) path = Ok usage ->
     h_disk_io_counters h (S (List.length t)) = Ok io ->
     exists d,
       get_disk_info path h t =
         (Ok (VDict d), (t ++ [c_disk_usage path; c_disk_io_counters])%list) /\
       dict_get "path" d = Some (VStr path)) /\
  (forall v t',
     get_disk_info path h t = (Ok v, t') -> subscript v "path" = Ok (VStr path)).
Proof.
  split.
  - intros usage io Hu Hio. run_goal. rewrite Hu. cbn beta iota.
    rewrite ?length_app; cbn [List.length]; rewrite ?Nat.add_1_r.
    rewrite Hio. cbn beta iota. rewrite <- app_assoc.
    eexists. split; [reflexivity |]. destruct io; reflexivity.
  - intros v t' H.
    destruct (get_disk_info_inv _ _ _ _ _ H) as (? & ? & ? & _ & _ & _ & _ & ->).
    reflexivity.
Qed.

Lemma get_disk_info_echoes_path_witness :
  exists d,
    get_disk_info "/tmp" sample_host [] =
      (Ok (VDict d), [c_disk_usage "/tmp"; c_disk_io_counters]) /\
    dict_get "path" d = Some (VStr "/tmp").
Proof.
  eapply (proj1 (get_disk_info_echoes_path sample_host [] "/tmp")); reflexivity.
Defined.

(** ** System *)





(** ** Percentages *)

Lemma percentage_round2 (q : Q) : in_percent q -> percentage (VFloat (round2 q)).
Proof. intro H. exists (round2 q). split; [reflexivity | now apply round2_in_percent]. Qed.

(** C8.  On a host whose utilisation figures are percentages, every
    percentage of a successful collection lies between 0 and 100 after
    rounding: the overall and the per-core CPU utilisation of
    [get_cpu_info], the RAM and the swap percent of [get_memory_info], and
    the usage percent of [get_disk_info]. *)
Theorem percentages_in_range (h : host) :
  percent_sources h ->
  (forall t t' v, get_cpu_info h t = (Ok v, t') ->
     exists p pc,
       subscript v "percent" = Ok p /\ percentage p /\
       subscript v "percent_per_core" = Ok (VList pc) /\ Forall percentage pc) /\
  (forall t t' v, get_memory_info h t = (Ok v, t') ->
     exists ram swap rp sp,
       subscript v "ram" = Ok ram /\ subscript ram "percent" = Ok rp /\ percentage rp /\
       subscript v "swap" = Ok swap /\ subscript swap "percent" = Ok sp /\ percentage sp) /\
  (forall path t t' v, get_disk_info path h t = (Ok v, t') ->
     exists p, subscript v "percent" = Ok p /\ percentage p).
Proof.
  intros [Hcpu Hpercpu Hvm Hswap Hdisk]. split; [| split].
  - intros t t' v H.
    destruct (get_cpu_info_inv _ _ _ _ H)
      as (percent & percpu & count & physical & l1 & l5 & l15 & Ep & Epc & _ & ->).
    do 2 eexists. split; [reflexivity |].
    split; [eapply percentage_round2, Hcpu; eassumption |].
    split; [reflexivity |].
    apply Forall_map. eapply Forall_impl; [| eapply Hpercpu; eassumption].
    intros q Hq. now apply percentage_round2.
  - intros t t' v H.
    destruct (get_memory_info_inv _ _ _ _ H) as (ram & swap & Er & Es & ->).
    do 4 eexists. split; [reflexivity |]. split; [reflexivity |].
    split; [eapply percentage_round2, Hvm; eassumption |].
    split; [reflexivity |]. split; [reflexivity |].
    eapply percentage_round2, Hswap; eassumption.
  - intros path t t' v H.
    destruct (get_disk_info_inv _ _ _ _ _ H) as (usage & io & extra & Eu & _ & _ & _ & ->).
    eexists. split; [reflexivity |].
    eapply percentage_round2, Hdisk; eassumption.
Qed.

Lemma percentages_in_range_witness :
  (exists p pc,
     subscript (VDict [ ("percent", VFloat (1250 # 100));
                        ("percent_per_core", VList [VFloat (1010 # 100); VFloat (1490 # 100)]);
                        ("core_count", VInt 2);
                        ("core_count_physical", VInt 1);
                        ("load_avg", VList [VFloat (15 # 100); VFloat (10 # 100); VFloat (5 # 100)]) ])
       "percent" = Ok p /\ percentage p /\
     subscript (VDict [ ("percent", VFloat (1250 # 100));
                        ("percent_per_core", VList [VFloat (1010 # 100); VFloat (1490 # 100)]);
                        ("core_count", VInt 2);
                        ("core_count_physical", VInt 1);
                        ("load_avg", VList [VFloat (15 # 100); VFloat (10 # 100); VFloat (5 # 100)]) ])
       "percent_per_core" = Ok (VList pc) /\ Forall percentage pc).
Proof.
  apply (proj1 (percentages_in_range sample_host sample_host_percent_sources)
           [] (snd (get_cpu_info sample_host []))).
  reflexivity.
Defined.

(** ** Cores *)

(** C9 (as amended).  [get_cpu_info] returns one per-core utilisation for
    each per-core sample the host reports, in their order and rounded, and
    as core_count the logical core count the host reports: the length of
    the sequence is the core count exactly when the host reports as many
    samples as it counts logical cores, and the sequence is empty exactly
    when the host has no per-core sample, the collection succeeding all the
    same. *)
Theorem get_cpu_info_per_core (h : host) (t : log)
    (percent : Q) (raw : list Q) (count physical : option Z) (load : Q * Q * Q) :
  h_cpu_percent h (List.length t) 1 = Ok percent ->
  h_cpu_percent_percpu h (1 + List.length t) (1 # 10) = Ok raw ->
  h_cpu_count h (2 + List.length t) true = Ok count ->
  h_cpu_count h (3 + List.length t) false = Ok physical ->
  h_getloadavg h (4 + List.length t) = Ok load ->
  exists d percpu,
    get_cpu_info h t =
      (Ok (VDict d),
       (t ++ [ c_cpu_percent 1 false; c_cpu_percent (1 # 10) true;
               c_cpu_count true; c_cpu_count false; c_getloadavg ])%list) /\
    dict_get "percent_per_core" d = Some (VList percpu) /\
    percpu = map (fun p => VFloat (round2 p)) raw /\
    List.length percpu = List.length raw /\
    dict_get "core_count" d = Some (opt_int count) /\
    (dict_get "core_count" d = Some (VInt (Z.of_nat (List.length percpu))) <->
     count = Some (Z.of_nat (List.length raw))) /\
    (percpu = [] <-> raw = []).
Proof.
  intros Hp Hr Hc Hph Hl. cbn [Nat.add] in *.
  run_goal. rewrite Hp. cbn beta iota.
  rewrite ?length_app; cbn [List.length]; rewrite ?Nat.add_1_r. rewrite Hr. cbn beta iota.
  rewrite ?length_app; cbn [List.length]; rewrite ?Nat.add_1_r. rewrite Hc. cbn beta iota.
  rewrite ?length_app; cbn [List.length]; rewrite ?Nat.add_1_r. rewrite Hph. cbn beta iota.
  rewrite ?length_app; cbn [List.length]; rewrite ?Nat.add_1_r. rewrite Hl. cbn beta iota.
  destruct load as [[l1 l5] l15]. rewrite <- !app_assoc. cbn [app].
  do 2 eexists. split; [reflexivity |].
  split; [reflexivity |]. split; [reflexivity |].
  split; [apply length_map |]. split; [reflexivity |].
  split.
  - cbn [dict_get String.eqb Ascii.eqb Bool.eqb]. rewrite length_map. split.
    + intro H. injection H as H. destruct count as [z|]; cbn in H; [| discriminate].
      now injection H as ->.
    + now intros ->.
  - split.
    + intro H. now destruct raw.
    + now intros ->.
Qed.

Lemma get_cpu_info_per_core_witness :
  exists d percpu,
    get_cpu_info sample_host [] =
      (Ok (VDict d),
       [ c_cpu_percent 1 false; c_cpu_percent (1 # 10) true;
         c_cpu_count true; c_cpu_count false; c_getloadavg ]) /\
    dict_get "percent_per_core" d = Some (VList percpu) /\
    percpu = [ VFloat (1010 # 100); VFloat (1490 # 100) ] /\
    List.length percpu = 2%nat /\
    dict_get "core_count" d = Some (VInt 2) /\
    (dict_get "core_count" d = Some (VInt (Z.of_nat (List.length percpu))) <->
     Some 2 = Some 2) /\
    (percpu = [] <-> [ 101 # 10; 149 # 10 ] = []).
Proof.
  apply (get_cpu_info_per_core sample_host [] (125 # 10) [ 101 # 10; 149 # 10 ]
           (Some 2) (Some 1) (15 # 100, 1 # 10, 5 # 100));
    reflexivity.
Defined.

(** C9 (as stated) fails where the two readings of the host disagree: in a
    container that is given two cores of a machine of 64, the snapshot has
    two per-core entries, which is neither the core count nor none. *)
Lemma get_cpu_info_per_core_mismatch :
  exists d percpu,
    fst (get_cpu_info container_host []) = Ok (VDict d) /\
    dict_get "percent_per_core" d = Some (VList percpu) /\
    dict_get "core_count" d = Some (VInt 64) /\
    List.length percpu = 2%nat /\
    Z.of_nat (List.length percpu) <> 64 /\
    percpu <> [].
Proof.
  do 2 eexists. split; [vm_compute; reflexivity |].
  split; [reflexivity |]. split; [reflexivity |]. split; [reflexivity |].
  split; [cbn; lia | discriminate].
Qed.

(** ** The log only grows *)

Lemma log_extends_ret {A : Type} (a : A) : log_extends (ret a).
Proof. intros h t r t' H. injection H as _ <-. exists []. now rewrite app_nil_r. Qed.

Lemma log_extends_raise {A : Type} (e : exn) : log_extends (@raise A e).
Proof. intros h t r t' H. injection H as _ <-. exists []. now rewrite app_nil_r. Qed.

Lemma log_extends_lift {A : Type} (x : result A) : log_extends (lift x).
Proof. intros h t r t' H. injection H as _ <-. exists []. now rewrite app_nil_r. Qed.

Lemma log_extends_sys {A : Type} (c : call) (answer : host -> nat -> result A) :
  log_extends (sys c answer).
Proof. intros h t r t' H. injection H as _ <-. now exists [c]. Qed.

Lemma log_extends_bind {A B : Type} (m : M A) (f : A -> M B) :
  log_extends m -> (forall a, log_extends (f a)) -> log_extends (bind m f).
Proof.
  intros Hm Hf h t r t' H. unfold bind in H.
  destruct (m h t) as [[a|e] t1] eqn:E; destruct (Hm _ _ _ _ E) as [c1 ->].
  - destruct (Hf a _ _ _ _ H) as [c2 ->]. exists (c1 ++ c2)%list. now rewrite app_assoc.
  - injection H as _ <-. now exists c1.
Qed.

Lemma log_extends_try_except {A : Type} (m : M A) (handler : exn -> M A) :
  log_extends m -> (forall e, log_extends (handler e)) ->
  log_extends (try_except m handler).
Proof.
  intros Hm Hh h t r t' H. unfold try_except in H.
  destruct (m h t) as [[a|e] t1] eqn:E; destruct (Hm _ _ _ _ E) as [c1 ->].
  - injection H as _ <-. now exists c1.
  - destruct (Hh e _ _ _ _ H) as [c2 ->]. exists (c1 ++ c2)%list. now rewrite app_assoc.
Qed.

Ltac log_extends :=
  repeat (intros;
          first [ apply log_extends_bind | apply log_extends_try_except
                | apply log_extends_sys | apply log_extends_ret
                | apply log_extends_raise | apply log_extends_lift
                | match goal with |- log_extends (match ?x with _ => _ end) => destruct x end
                | match goal with |- log_extends (if ?x then _ else _) => destruct x end ]).

Lemma log_extends_get_system_info : log_extends get_system_info.
Proof. unfold get_system_info. log_extends. Qed.

Lemma log_extends_get_cpu_info : log_extends get_cpu_info.
Proof. unfold get_cpu_info. log_extends. Qed.

Lemma log_extends_get_memory_info : log_extends get_memory_info.
Proof. unfold get_memory_info. log_extends. Qed.

Lemma log_extends_get_disk_info (path : string) : log_extends (get_disk_info path).
Proof. unfold get_disk_info. log_extends. Qed.

Lemma log_extends_get_network_info : log_extends get_network_info.
Proof. unfold get_network_info. log_extends. Qed.

Lemma log_extends_get_top_processes (limit : Z) : log_extends (get_top_processes limit).
Proof. unfold get_top_processes. log_extends. Qed.

Lemma log_extends_run_sections (ss : list (string * M value)) :
  Forall (fun s => log_extends (snd s)) ss -> log_extends (run_sections ss).
Proof.
  induction 1 as [|[name m] ss Hm _ IH]; cbn [run_sections]; log_extends; assumption.
Qed.

Lemma log_extends_sections : Forall (fun s => log_extends (snd s)) sections.
Proof.
  unfold sections. repeat constructor; cbn [snd];
    auto using log_extends_get_system_info, log_extends_get_cpu_info,
      log_extends_get_memory_info, log_extends_get_disk_info,
      log_extends_get_network_info.
  apply log_extends_bind; [apply log_extends_get_top_processes |].
  intro. apply log_extends_ret.
Qed.

(** ** GET /metrics *)

(** The dictionary literal of [get_all_metrics] evaluates the timestamp,
    then the sections in sequence. *)
Lemma get_all_metrics_sections (h : host) (t : log) :
  get_all_metrics h t =
    match run_sections sections h (t ++ [c_now])%list with
    | (Ok d, t') =>
        (Ok (VDict (("timestamp", VStr (isoformat (h_now h (List.length t)))) :: d)), t')
    | (Raise e, t') => (Raise e, t')
    end.
Proof.
  unfold get_all_metrics, sections, run_sections, timestamp_now, datetime_now.
  unfold bind at 1 2. unfold sys at 1, ret at 1. cbn beta iota.
  unfold bind, ret.
  repeat match goal with
    | |- context [match ?m h ?l with _ => _ end] =>
        destruct (m h l) as [[?|?] ?]; cbn beta iota; try reflexivity
    end.
Qed.

Lemma run_sections_keys (ss : list (string * M value)) (h : host) :
  forall t d t', run_sections ss h t = (Ok d, t') -> dict_keys d = map fst ss.
Proof.
  induction ss as [|[name m] ss IH]; cbn [run_sections]; intros t d t' H.
  - now injection H as <- _.
  - unfold bind, ret in H.
    destruct (m h t) as [[v|e] t1]; [| discriminate].
    destruct (run_sections ss h t1) as [[d'|e] t2] eqn:E; [| discriminate].
    injection H as <- _. cbn. f_equal. eapply IH, E.
Qed.

(** A section that raises after its predecessors have returned makes the
    sequence raise the same exception. *)
Lemma run_sections_raise (h : host) (pre : list (string * M value)) :
  forall post name (m : M value) t d t1 e t2,
    run_sections pre h t = (Ok d, t1) ->
    m h t1 = (Raise e, t2) ->
    run_sections (pre ++ (name, m) :: post) h t = (Raise e, t2).
Proof.
  induction pre as [|[n0 m0] pre IH]; intros post name m t d t1 e t2 Hpre Hm.
  - injection Hpre as _ <-. cbn. unfold bind. now rewrite Hm.
  - cbn [run_sections app] in *. unfold bind, ret in *.
    destruct (m0 h t) as [[v|e0] t0]; [| discriminate].
    destruct (run_sections pre h t0) as [[d'|e0] t0'] eqn:E; [| discriminate].
    injection Hpre as _ <-.
    now rewrite (IH post name m _ _ _ _ _ E Hm).
Qed.

(** C3.  [get_all_metrics] fails as a whole: if any of its sub-collections
    (system, cpu, memory, disk of "/", network, top processes), called
    after the ones before it have returned, raises, then the call raises
    that same exception and returns no dictionary; and whenever the call
    returns a dictionary, it has the timestamp and all six sections. *)
Theorem get_all_metrics_atomic (h : host) (t : log) :
  (forall pre name (m : M value) post d t1 e t2,
     sections = (pre ++ (name, m) :: post)%list ->
     run_sections pre h (t ++ [c_now])%list = (Ok d, t1) ->
     m h t1 = (Raise e, t2) ->
     get_all_metrics h t = (Raise e, t2)) /\
  (forall body t',
     get_all_metrics h t = (Ok body, t') ->
     exists d,
       body = VDict d /\
       dict_keys d = [ "timestamp"; "system"; "cpu"; "memory"; "disk";
                       "network"; "top_processes" ]).
Proof.
  split.
  - intros pre name m post d t1 e t2 Hs Hpre Hm.
    rewrite get_all_metrics_sections, Hs.
    now rewrite (run_sections_raise h pre post name m _ _ _ _ _ Hpre Hm).
  - intros body t' H. rewrite get_all_metrics_sections in H.
    destruct (run_sections sections h (t ++ [c_now])%list) as [[d|e] t1] eqn:E;
      [| discriminate].
    injection H as <- _. eexists. split; [reflexivity |].
    cbn [dict_keys map fst]. f_equal.
    apply (run_sections_keys _ _ _ _ _ E).
Qed.

Lemma get_all_metrics_atomic_witness :
  get_all_metrics rootless_host [] =
    (Raise (HTTPException 400 "Invalid disk path: /"),
     [ c_now; c_boot_time; c_now; c_platform "node"; c_platform "system";
       c_platform "release"; c_platform "machine"; c_platform "python_version";
       c_pids; c_cpu_percent 1 false; c_cpu_percent (1 # 10) true;
       c_cpu_count true; c_cpu_count false; c_getloadavg;
       c_virtual_memory; c_swap_memory; c_disk_usage "/" ]).
Proof.
  eapply (proj1 (get_all_metrics_atomic rootless_host [])
            [ ("system", get_system_info); ("cpu", get_cpu_info);
              ("memory", get_memory_info) ]
            "disk" (get_disk_info "/")
            [ ("network", get_network_info);
              ("top_processes", bind (get_top_processes 5) (fun ps => ret (VList ps))) ]);
    reflexivity.
Defined.

Lemma proc_entry_no_timestamp (p : result pinfo) (d : value) :
  proc_entry p = Ok d -> has_key "timestamp" d = false.
Proof.
  destruct p as [i|e]; cbn [proc_entry]; [| discriminate].
  destruct (py_round2 _); [| discriminate].
  destruct (py_round2 _); [| discriminate].
  intro H. now injection H as <-.
Qed.

Lemma collect_procs_no_timestamp (rows : list (result pinfo)) :
  forall procs, collect_procs rows = Ok procs ->
    Forall (fun d => has_key "timestamp" d = false) procs.
Proof.
  induction rows as [|p rows IH]; cbn [collect_procs]; intros procs H.
  - injection H as <-. constructor.
  - destruct (proc_entry p) as [d|e] eqn:Ep.
    + destruct (collect_procs rows) as [ds|]; [| discriminate].
      injection H as <-. constructor; [| now apply IH].
      eapply proc_entry_no_timestamp, Ep.
    + destruct e; try discriminate; now apply IH.
Qed.

(** The sort and the slice return entries of the list they are given. *)
Lemma sorted_reverse_Forall {A : Type} (P : A -> Prop) (key : A -> result Q)
    (l ranked : list A) :
  sorted_reverse key l = Ok ranked -> Forall P l -> Forall P ranked.
Proof.
  unfold sorted_reverse. destruct (decorate key l) as [kl|] eqn:E; [| discriminate].
  intros H Hl. injection H as <-.
  destruct (decorate_spec _ _ _ E) as [Hm _]. rewrite <- Hm in Hl.
  rewrite Forall_forall in *. intros x Hx. apply Hl.
  eapply Permutation_in; [| exact Hx].
  apply Permutation_map. symmetry. apply sort_desc_perm.
Qed.

Lemma slice_to_Forall {A : Type} (P : A -> Prop) (l : list A) (n : Z) :
  Forall P l -> Forall P (slice_to l n).
Proof.
  destruct (slice_to_prefix l n) as [rest Hrest].
  intro H. rewrite Hrest in H. now apply Forall_app in H.
Qed.

Lemma get_top_processes_no_timestamp (h : host) (t t' : log) (limit : Z)
    (ps : list value) :
  get_top_processes limit h t = (Ok ps, t') ->
  Forall (fun d => has_key "timestamp" d = false) ps.
Proof.
  unfold get_top_processes, bind, psutil_process_iter, sys, lift, ret.
  destruct (h_process_iter h (List.length t)) as [rows|]; [| discriminate].
  destruct (collect_procs rows) as [procs|] eqn:Ep; [| discriminate].
  destruct (sorted_reverse cpu_key procs) as [ranked|] eqn:Es; [| discriminate].
  intro H. injection H as <- _.
  apply slice_to_Forall. eapply sorted_reverse_Forall; [exact Es |].
  now apply collect_procs_no_timestamp with rows.
Qed.

Lemma sections_no_timestamp (h : host) :
  Forall (fun s => forall t v t', snd s h t = (Ok v, t') -> no_timestamp v) sections.
Proof.
  unfold sections. repeat constructor; cbn [snd]; intros t v t' H.
  - destruct (get_system_info_inv _ _ _ _ H) as (bt & boot & pids & _ & _ & _ & _ & ->).
    reflexivity.
  - destruct (get_cpu_info_inv _ _ _ _ H) as (? & ? & ? & ? & ? & ? & ? & _ & _ & _ & ->).
    reflexivity.
  - destruct (get_memory_info_inv _ _ _ _ H) as (? & ? & _ & _ & ->).
    reflexivity.
  - destruct (get_disk_info_inv _ _ _ _ _ H)
      as (? & ? & extra & _ & _ & _ & [-> | [c ->]] & ->); reflexivity.
  - destruct (get_network_info_inv _ _ _ _ H) as (? & ->). reflexivity.
  - unfold bind, ret in H.
    destruct (get_top_processes 5 h t) as [[ps|e] t1] eqn:E; [| discriminate].
    injection H as <- _. cbn [no_timestamp].
    eapply get_top_processes_no_timestamp, E.
Qed.

Lemma run_sections_Forall (P : value -> Prop) (h : host)
    (ss : list (string * M value)) :
  Forall (fun s => forall t v t', snd s h t = (Ok v, t') -> P v) ss ->
  forall t d t', run_sections ss h t = (Ok d, t') -> Forall (fun kv => P (snd kv)) d.
Proof.
  induction 1 as [|[name m] ss Hm _ IH]; cbn [run_sections]; intros t d t' H.
  - injection H as <- _. constructor.
  - unfold bind, ret in H. cbn [snd] in Hm.
    destruct (m h t) as [[v|e] t1] eqn:Ev; [| discriminate].
    destruct (run_sections ss h t1) as [[d'|e] t2] eqn:E; [| discriminate].
    injection H as <- _. constructor; [exact (Hm _ _ _ Ev) | exact (IH _ _ _ E)].
Qed.

(** C4.  Every aggregate returned by [get_all_metrics] has one timestamp:
    its first entry, the rendering of the one clock reading the request
    makes before it samples anything; its other entries are the six
    sections, and no section (nor any entry of the process list) has a
    "timestamp" of its own. *)
Theorem get_all_metrics_timestamp (h : host) (t t' : log) (body : value) :
  get_all_metrics h t = (Ok body, t') ->
  exists d calls,
    body = VDict (("timestamp", VStr (isoformat (h_now h (List.length t)))) :: d) /\
    t' = (t ++ c_now :: calls)%list /\
    dict_keys d = [ "system"; "cpu"; "memory"; "disk"; "network"; "top_processes" ] /\
    Forall (fun kv => no_timestamp (snd kv)) d.
Proof.
  intro H. rewrite get_all_metrics_sections in H.
  destruct (run_sections sections h (t ++ [c_now])%list) as [[d|e] t1] eqn:E;
    [| discriminate].
  injection H as <- <-.
  destruct (log_extends_run_sections _ log_extends_sections _ _ _ _ E) as [calls ->].
  exists d, calls. split; [reflexivity |].
  split; [now rewrite <- app_assoc |].
  split; [apply (run_sections_keys _ _ _ _ _ E) |].
  exact (run_sections_Forall _ _ _ (sections_no_timestamp h) _ _ _ E).
Qed.

Lemma get_all_metrics_timestamp_witness :
  exists body,
    fst (get_all_metrics sample_host []) = Ok body /\
    exists d calls,
      body = VDict (("timestamp", VStr "2023-11-14T23:13:20+00:00") :: d) /\
      snd (get_all_metrics sample_host []) = c_now :: calls /\
      dict_keys d = [ "system"; "cpu"; "memory"; "disk"; "network"; "top_processes" ] /\
      Forall (fun kv => no_timestamp (snd kv)) d.
Proof.
  eexists. split; [reflexivity |].
  apply (get_all_metrics_timestamp sample_host []
           (snd (get_all_metrics sample_host []))).
  reflexivity.
Defined.

(** * Further properties of the collectors and the endpoints *)

(** ** Rounding to two decimals *)

Lemma round_half_even_monotone (x y : Q) :
  (x <= y)%Q -> round_half_even x <= round_half_even y.
Proof.
  intro Hxy. pose proof (Qfloor_resp_le _ _ Hxy) as Hf.
  destruct (Z_lt_le_dec (Qfloor x) (Qfloor y)) as [Hlt | Hge].
  - unfold round_half_even. cbv zeta.
    destruct (Qcompare (x - _) _); destruct (Qcompare (y - _) _);
      repeat match goal with |- context [Z.even ?f] => destruct (Z.even f) end; lia.
  - assert (E : Qfloor y = Qfloor x) by lia.
    unfold round_half_even. cbv zeta. rewrite E.
    destruct (Qcompare (x - _) _) eqn:Ex; destruct (Qcompare (y - _) _) eqn:Ey;
      repeat match goal with
        | H : (_ ?= _)%Q = Eq |- _ => apply Qeq_alt in H
        | H : (_ ?= _)%Q = Lt |- _ => apply Qlt_alt in H
        | H : (_ ?= _)%Q = Gt |- _ => apply Qgt_alt in H
        end;
      destruct (Z.even (Qfloor x)); try lia; exfalso; lra.
Qed.

Lemma round2_monotone (x y : Q) : (x <= y)%Q -> (round2 x <= round2 y)%Q.
Proof.
  intro H.
  assert (H' : round_half_even (x * 100) <= round_half_even (y * 100))
    by (apply round_half_even_monotone; lra).
  unfold round2, Qle. cbn. lia.
Qed.

Lemma round2_error (q : Q) :
  (round2 q - q <= 1 # 200)%Q /\ (q - round2 q <= 1 # 200)%Q.
Proof.
  destruct (round_half_even_error (q * 100)) as [H1 H2].
  assert (E : (round2 q == inject_Z (round_half_even (q * 100)) * (1 # 100))%Q).
  { unfold round2. rewrite (Qmake_Qdiv _ 100). reflexivity. }
  rewrite E. split; lra.
Qed.

(** ** Binary floating point *)

Lemma pow2_pos (e : Z) : (0 < 2 ^ e)%Q.
Proof. apply Qpower_0_lt. reflexivity. Qed.

Lemma pow2_le (a b : Z) : a <= b -> (2 ^ a <= 2 ^ b)%Q.
Proof. intro H. apply Qpower_le_compat_l; [exact H | discriminate]. Qed.

Lemma pow2_succ (e : Z) : (2 ^ (e + 1) == 2 * 2 ^ e)%Q.
Proof. rewrite Qpower_plus by discriminate. change (2 ^ 1)%Q with 2%Q. ring. Qed.

Lemma pow2_plus (a b : Z) : (2 ^ (a + b) == 2 ^ a * 2 ^ b)%Q.
Proof. apply Qpower_plus. discriminate. Qed.

Lemma pow2_inject (n : Z) : 0 <= n -> (2 ^ n == inject_Z (2 ^ n))%Q.
Proof. intro H. rewrite (Zpower_Qpower 2 n H). reflexivity. Qed.

Lemma Qnum_pos (q : Q) (p : positive) : Qnum q = Zpos p -> (0 < q)%Q.
Proof. intro H. unfold Qlt. cbn. rewrite H. lia. Qed.

Lemma ilog2_spec (q : Q) :
  (0 < q)%Q -> (2 ^ ilog2 q <= q)%Q /\ (q < 2 ^ (ilog2 q + 1))%Q.
Proof.
  intro Hq. unfold ilog2. cbv zeta.
  set (a := Z.log2 (Qnum q)). set (b := Z.log2 (Z.pos (Qden q))).
  assert (Hn : 0 < Qnum q) by (unfold Qlt in Hq; cbn in Hq; lia).
  destruct (Z.log2_spec (Qnum q) Hn) as [Ha1 Ha2]. fold a in Ha1, Ha2.
  destruct (Z.log2_spec (Z.pos (Qden q)) ltac:(lia)) as [Hb1 Hb2]. fold b in Hb1, Hb2.
  assert (Ha0 : 0 <= a) by apply Z.log2_nonneg.
  assert (Hb0 : 0 <= b) by apply Z.log2_nonneg.
  set (T := (2 ^ (a - b))%Q).
  set (A := inject_Z (2 ^ a)). set (B := inject_Z (2 ^ b)).
  set (N := inject_Z (Qnum q)). set (D := inject_Z (Z.pos (Qden q))).
  assert (HT : (T * B == A)%Q).
  { unfold T, A, B. rewrite <- !pow2_inject by assumption.
    rewrite <- pow2_plus. now replace (a - b + b) with a by lia. }
  assert (HqD : (q * D == N)%Q).
  { unfold D, N. destruct q as [n d]. cbn [Qnum Qden].
    rewrite (Qmake_Qdiv n d) at 1. field. discriminate. }
  assert (HA : (A <= N)%Q) by (unfold A, N; now rewrite <- Zle_Qle).
  assert (HA2 : (N < 2 * A)%Q).
  { unfold A, N. change 2%Q with (inject_Z 2). rewrite <- inject_Z_mult, <- Zlt_Qlt.
    rewrite Z.pow_succ_r in Ha2 by assumption. lia. }
  assert (HB : (B <= D)%Q) by (unfold B, D; now rewrite <- Zle_Qle).
  assert (HB2 : (D < 2 * B)%Q).
  { unfold B, D. change 2%Q with (inject_Z 2). rewrite <- inject_Z_mult, <- Zlt_Qlt.
    rewrite Z.pow_succ_r in Hb2 by assumption. lia. }
  assert (HB0 : (0 < B)%Q).
  { unfold B. change 0%Q with (inject_Z 0). rewrite <- Zlt_Qlt. lia. }
  assert (HT0 : (0 < T)%Q) by apply pow2_pos.
  assert (Hup : (q < 2 * T)%Q) by (clearbody T A B N D; nra).
  assert (Hlo : (T <= 2 * q)%Q) by (clearbody T A B N D; nra).
  destruct (Qle_bool T q) eqn:E.
  - apply Qle_bool_iff in E. split; [exact E |]. fold T. now rewrite pow2_succ.
  - assert (q < T)%Q as E' by (apply Qnot_le_lt; intro H; apply Qle_bool_iff in H; congruence).
    replace (a - b - 1 + 1) with (a - b) by lia. split; [| exact E'].
    assert (E2 : (T == 2 * 2 ^ (a - b - 1))%Q).
    { unfold T. rewrite <- pow2_succ. now replace (a - b - 1 + 1) with (a - b) by lia. }
    clearbody T. lra.
Qed.

Lemma ilog2_monotone (x y : Q) : (0 < x)%Q -> (x <= y)%Q -> ilog2 x <= ilog2 y.
Proof.
  intros Hx Hxy.
  destruct (ilog2_spec x Hx) as [Hx1 _].
  destruct (ilog2_spec y ltac:(lra)) as [_ Hy2].
  assert (H : (2 ^ ilog2 x < 2 ^ (ilog2 y + 1))%Q) by lra.
  apply Qpower_lt_compat_l_inv in H; [lia | reflexivity].
Qed.

(** The exponent of the last bit of the mantissa. *)
Lemma binary64_pos_bounds (q : Q) :
  (0 < q)%Q ->
  let e := Z.max (ilog2 q - 52) (-1074) in
  (0 <= binary64_pos q)%Q /\
  (binary64_pos q <= 2 ^ (e + 53))%Q /\
  (-1074 < e -> (2 ^ (e + 52) <= binary64_pos q)%Q).
Proof.
  intros Hq e. unfold binary64_pos. cbv zeta. fold e.
  destruct (ilog2_spec q Hq) as [Hlo Hhi].
  pose proof (pow2_pos e) as He.
  set (x := (q / 2 ^ e)%Q).
  assert (Hx : (x * 2 ^ e == q)%Q) by (unfold x; field; lra).
  assert (Hx0 : (0 <= x)%Q).
  { unfold x. apply Qle_shift_div_l; [exact He | lra]. }
  assert (Hx53 : (x <= inject_Z (2 ^ 53))%Q).
  { rewrite <- pow2_inject by lia. unfold x. apply Qle_shift_div_r; [exact He |].
    rewrite <- pow2_plus.
    assert ((2 ^ (ilog2 q + 1) <= 2 ^ (53 + e))%Q) by (apply pow2_le; lia). lra. }
  destruct (round_half_even_bounds x 0 (2 ^ 53) Hx0 Hx53) as [Hm0 Hm53].
  set (m := round_half_even x) in *.
  split; [| split].
  - apply Qmult_le_0_compat; [| lra].
    change 0%Q with (inject_Z 0). now rewrite <- Zle_Qle.
  - rewrite (Z.add_comm e 53), pow2_plus.
    apply Qmult_le_compat_r; [| lra].
    rewrite pow2_inject by lia. now rewrite <- Zle_Qle.
  - intro Hn. assert (Ee : e = ilog2 q - 52) by lia.
    assert (Hx52 : (inject_Z (2 ^ 52) <= x)%Q).
    { rewrite <- pow2_inject by lia. unfold x. apply Qle_shift_div_l; [exact He |].
      rewrite <- pow2_plus. replace (52 + e) with (ilog2 q) by lia. exact Hlo. }
    destruct (round_half_even_bounds x (2 ^ 52) (2 ^ 53) Hx52 Hx53) as [Hm52 _].
    fold m in Hm52.
    rewrite (Z.add_comm e 52), pow2_plus.
    apply Qmult_le_compat_r; [| lra].
    rewrite pow2_inject by lia. now rewrite <- Zle_Qle.
Qed.

Lemma binary64_pos_monotone (x y : Q) :
  (0 < x)%Q -> (x <= y)%Q -> (binary64_pos x <= binary64_pos y)%Q.
Proof.
  intros Hx Hxy. assert (Hy : (0 < y)%Q) by lra.
  pose proof (ilog2_monotone x y Hx Hxy) as Hl.
  destruct (binary64_pos_bounds x Hx) as (_ & Hux & _).
  destruct (binary64_pos_bounds y Hy) as (_ & _ & Hly).
  cbv zeta in Hux, Hly.
  set (ex := Z.max (ilog2 x - 52) (-1074)) in *.
  set (ey := Z.max (ilog2 y - 52) (-1074)) in *.
  destruct (Z.eq_dec ex ey) as [E | Hne].
  - unfold binary64_pos. cbv zeta. fold ex ey. rewrite <- E.
    pose proof (pow2_pos ex) as He.
    apply Qmult_le_compat_r; [| lra].
    rewrite <- Zle_Qle. apply round_half_even_monotone.
    apply Qmult_le_compat_r; [exact Hxy |].
    apply Qlt_le_weak, Qinv_lt_0_compat, He.
  - assert (Hlt : ex < ey) by lia.
    assert (H1 : (2 ^ (ex + 53) <= 2 ^ (ey + 52))%Q) by (apply pow2_le; lia).
    specialize (Hly ltac:(lia)). lra.
Qed.

Lemma binary64_monotone (x y : Q) : (x <= y)%Q -> (binary64 x <= binary64 y)%Q.
Proof.
  intro Hxy. unfold binary64.
  destruct (Qnum x) as [|px|px] eqn:Ex; destruct (Qnum y) as [|py|py] eqn:Ey.
  - apply Qle_refl.
  - apply binary64_pos_bounds. eapply Qnum_pos, Ey.
  - exfalso. unfold Qle in Hxy. rewrite Ex, Ey in Hxy. lia.
  - exfalso. unfold Qle in Hxy. rewrite Ex, Ey in Hxy. lia.
  - apply binary64_pos_monotone; [eapply Qnum_pos, Ex | exact Hxy].
  - exfalso. unfold Qle in Hxy. rewrite Ex, Ey in Hxy. lia.
  - assert (H : (0 < - x)%Q) by (unfold Qlt; cbn; rewrite Ex; lia).
    pose proof (proj1 (binary64_pos_bounds (- x) H)). lra.
  - assert (H : (0 < - x)%Q) by (unfold Qlt; cbn; rewrite Ex; lia).
    pose proof (proj1 (binary64_pos_bounds (- x) H)).
    pose proof (proj1 (binary64_pos_bounds y (Qnum_pos _ _ Ey))). lra.
  - assert (H : (0 < - y)%Q) by (unfold Qlt; cbn; rewrite Ey; lia).
    assert (H' : (binary64_pos (- y) <= binary64_pos (- x))%Q)
      by (apply binary64_pos_monotone; [exact H | lra]).
    lra.
Qed.

(** The rounded quotient keeps the order of the byte counts. *)
Lemma round_div_monotone (a b : Z) (d : Q) :
  (0 < d)%Q -> a <= b ->
  (round2 (float_div (float_of_int a) d) <= round2 (float_div (float_of_int b) d))%Q.
Proof.
  intros Hd Hab. apply round2_monotone. unfold float_div, float_of_int.
  apply binary64_monotone. apply Qmult_le_compat_r.
  - apply binary64_monotone. now rewrite <- Zle_Qle.
  - apply Qlt_le_weak, Qinv_lt_0_compat, Hd.
Qed.

(** ** Memory and network *)

Lemma get_network_info_inv_source (h : host) (t t' : log) (v : value) :
  get_network_info h t = (Ok v, t') ->
  exists net,
    h_net_io_counters h (List.length t) = Ok net /\
    t' = (t ++ [c_net_io_counters])%list /\
    v = VDict
      [ ("bytes_sent_mb", round_mb (bytes_sent net));
        ("bytes_recv_mb", round_mb (bytes_recv net));
        ("packets_sent", VInt (packets_sent net));
        ("packets_recv", VInt (packets_recv net));
        ("errors_in", VInt (errin net));
        ("errors_out", VInt (errout net)) ].
Proof.
  unfold get_network_info, bind, psutil_net_io_counters, sys, ret.
  destruct (h_net_io_counters h (List.length t)) as [net|]; [| discriminate].
  intro H. injection H as <- <-. now exists net.
Qed.

(** X1.  Whenever [get_memory_info] returns, the rounded figures keep the
    order of the byte counts they come from: if the host reports no more
    used than total memory, then used_gb is at most total_gb, for the RAM as
    for the swap, and likewise available_gb is at most total_gb. *)
Theorem get_memory_info_ordered (h : host) (t t' : log) (v : value) :
  get_memory_info h t = (Ok v, t') ->
  exists ram swap rt ru ra st su,
    h_virtual_memory h (List.length t) = Ok ram /\
    h_swap_memory h (S (List.length t)) = Ok swap /\
    subscript v "ram" =
      Ok (VDict [ ("total_gb", VFloat rt); ("used_gb", VFloat ru);
                  ("available_gb", VFloat ra);
                  ("percent", VFloat (round2 (vm_percent ram))) ]) /\
    subscript v "swap" =
      Ok (VDict [ ("total_gb", VFloat st); ("used_gb", VFloat su);
                  ("percent", VFloat (round2 (sw_percent swap))) ]) /\
    (vm_used ram <= vm_total ram -> (ru <= rt)%Q) /\
    (vm_available ram <= vm_total ram -> (ra <= rt)%Q) /\
    (sw_used swap <= sw_total swap -> (su <= st)%Q).
Proof.
  intro H. destruct (get_memory_info_inv _ _ _ _ H) as (ram & swap & Er & Es & ->).
  exists ram, swap. do 5 eexists.
  split; [exact Er |]. split; [exact Es |].
  split; [reflexivity |]. split; [reflexivity |].
  repeat split; intro Hle; apply round_div_monotone;
    first [reflexivity | exact Hle].
Qed.

Lemma get_memory_info_ordered_witness :
  exists ram swap rt ru ra st su,
    h_virtual_memory sample_host 0 = Ok ram /\
    h_swap_memory sample_host 1 = Ok swap /\
    subscript (match fst (get_memory_info sample_host []) with
               | Ok v => v | Raise _ => VNone end) "ram" =
      Ok (VDict [ ("total_gb", VFloat rt); ("used_gb", VFloat ru);
                  ("available_gb", VFloat ra);
                  ("percent", VFloat (round2 (vm_percent ram))) ]) /\
    subscript (match fst (get_memory_info sample_host []) with
               | Ok v => v | Raise _ => VNone end) "swap" =
      Ok (VDict [ ("total_gb", VFloat st); ("used_gb", VFloat su);
                  ("percent", VFloat (round2 (sw_percent swap))) ]) /\
    (vm_used ram <= vm_total ram -> (ru <= rt)%Q) /\
    (vm_available ram <= vm_total ram -> (ra <= rt)%Q) /\
    (sw_used swap <= sw_total swap -> (su <= st)%Q).
Proof.
  apply (get_memory_info_ordered sample_host [] (snd (get_memory_info sample_host []))).
  reflexivity.
Defined.

(** X2.  Whenever [get_network_info] returns, the packet and error counters
    are the ones the host reports, unchanged, and the megabyte figures
    follow the byte counters: between two calls, a byte counter that has
    not gone down gives a megabyte figure that has not gone down. *)
Theorem get_network_info_figures (h1 h2 : host) (t1 t1' t2 t2' : log)
    (v1 v2 : value) :
  get_network_info h1 t1 = (Ok v1, t1') ->
  get_network_info h2 t2 = (Ok v2, t2') ->
  exists net1 net2 sent1 sent2 recv1 recv2,
    h_net_io_counters h1 (List.length t1) = Ok net1 /\
    h_net_io_counters h2 (List.length t2) = Ok net2 /\
    subscript v1 "bytes_sent_mb" = Ok (VFloat sent1) /\
    subscript v2 "bytes_sent_mb" = Ok (VFloat sent2) /\
    subscript v1 "bytes_recv_mb" = Ok (VFloat recv1) /\
    subscript v2 "bytes_recv_mb" = Ok (VFloat recv2) /\
    (bytes_sent net1 <= bytes_sent net2 -> (sent1 <= sent2)%Q) /\
    (bytes_recv net1 <= bytes_recv net2 -> (recv1 <= recv2)%Q) /\
    subscript v1 "packets_sent" = Ok (VInt (packets_sent net1)) /\
    subscript v1 "packets_recv" = Ok (VInt (packets_recv net1)) /\
    subscript v1 "errors_in" = Ok (VInt (errin net1)) /\
    subscript v1 "errors_out" = Ok (VInt (errout net1)).
Proof.
  intros H1 H2.
  destruct (get_network_info_inv_source _ _ _ _ H1) as (net1 & En1 & _ & ->).
  destruct (get_network_info_inv_source _ _ _ _ H2) as (net2 & En2 & _ & ->).
  exists net1, net2. do 4 eexists.
  split; [exact En1 |]. split; [exact En2 |].
  do 4 (split; [reflexivity |]).
  split; [intro Hle; apply round_div_monotone; [reflexivity | exact Hle] |].
  split; [intro Hle; apply round_div_monotone; [reflexivity | exact Hle] |].
  repeat split.
Qed.

Lemma get_network_info_figures_witness :
  exists net1 net2 sent1 sent2 recv1 recv2,
    h_net_io_counters sample_host 0 = Ok net1 /\
    h_net_io_counters sample_host 1 = Ok net2 /\
    subscript (match fst (get_network_info sample_host []) with
               | Ok v => v | Raise _ => VNone end) "bytes_sent_mb" = Ok (VFloat sent1) /\
    subscript (match fst (get_network_info sample_host [c_now]) with
               | Ok v => v | Raise _ => VNone end) "bytes_sent_mb" = Ok (VFloat sent2) /\
    subscript (match fst (get_network_info sample_host []) with
               | Ok v => v | Raise _ => VNone end) "bytes_recv_mb" = Ok (VFloat recv1) /\
    subscript (match fst (get_network_info sample_host [c_now]) with
               | Ok v => v | Raise _ => VNone end) "bytes_recv_mb" = Ok (VFloat recv2) /\
    (bytes_sent net1 <= bytes_sent net2 -> (sent1 <= sent2)%Q) /\
    (bytes_recv net1 <= bytes_recv net2 -> (recv1 <= recv2)%Q) /\
    subscript (match fst (get_network_info sample_host []) with
               | Ok v => v | Raise _ => VNone end) "packets_sent" = Ok (VInt (packets_sent net1)) /\
    subscript (match fst (get_network_info sample_host []) with
               | Ok v => v | Raise _ => VNone end) "packets_recv" = Ok (VInt (packets_recv net1)) /\
    subscript (match fst (get_network_info sample_host []) with
               | Ok v => v | Raise _ => VNone end) "errors_in" = Ok (VInt (errin net1)) /\
    subscript (match fst (get_network_info sample_host []) with
               | Ok v => v | Raise _ => VNone end) "errors_out" = Ok (VInt (errout net1)).
Proof.
  apply (get_network_info_figures sample_host sample_host
           [] (snd (get_network_info sample_host []))
           [c_now] (snd (get_network_info sample_host [c_now])));
    reflexivity.
Defined.

(** ** Disk: the I/O counters and the endpoint *)

(** X3.  The I/O counters are optional in the dictionary of [get_disk_info]:
    when the host has none, the dictionary has the five usage keys and no
    "io" key; when it has some, "io" holds their rounded megabytes. *)
Theorem get_disk_info_io (h : host) (t t' : log) (path : string) (v : value) :
  get_disk_info path h t = (Ok v, t') ->
  exists d io,
    v = VDict d /\
    h_disk_io_counters h (S (List.length t)) = Ok io /\
    match io with
    | None =>
        dict_keys d = [ "path"; "total_gb"; "used_gb"; "free_gb"; "percent" ] /\
        subscript v "io" = Raise (KeyError "io")
    | Some c =>
        dict_keys d = [ "path"; "total_gb"; "used_gb"; "free_gb"; "percent"; "io" ] /\
        subscript v "io" =
          Ok (VDict [ ("read_mb", round_mb (read_bytes c));
                      ("write_mb", round_mb (write_bytes c)) ])
    end.
Proof.
  unfold get_disk_info, try_except, raise, bind, psutil_disk_usage,
    psutil_disk_io_counters, sys, ret.
  cbn beta iota.
  destruct (h_disk_usage h (List.length t) path) as [usage|]; cbn beta iota;
    [| discriminate].
  rewrite length_app, Nat.add_1_r. cbn [List.length].
  destruct (h_disk_io_counters h (S (List.length t))) as [io|]; cbn beta iota;
    [| discriminate].
  intro H. injection H as <- _.
  eexists. exists io. split; [reflexivity |]. split; [reflexivity |].
  destruct io; split; reflexivity.
Qed.

Lemma get_disk_info_io_witness :
  exists d io,
    match fst (get_disk_info "/" sample_host []) with
    | Ok v => v | Raise _ => VNone end = VDict d /\
    h_disk_io_counters sample_host 1 = Ok io /\
    match io with
    | None =>
        dict_keys d = [ "path"; "total_gb"; "used_gb"; "free_gb"; "percent" ] /\
        subscript (match fst (get_disk_info "/" sample_host []) with
                   | Ok v => v | Raise _ => VNone end) "io" = Raise (KeyError "io")
    | Some c =>
        dict_keys d = [ "path"; "total_gb"; "used_gb"; "free_gb"; "percent"; "io" ] /\
        subscript (match fst (get_disk_info "/" sample_host []) with
                   | Ok v => v | Raise _ => VNone end) "io" =
          Ok (VDict [ ("read_mb", round_mb (read_bytes c));
                      ("write_mb", round_mb (write_bytes c)) ])
    end.
Proof.
  apply (get_disk_info_io sample_host [] (snd (get_disk_info "/" sample_host [])) "/").
  reflexivity.
Defined.

(** X4.  The [try] of [get_disk_info] also covers the reading of the I/O
    counters: when the path can be stat'ed but that reading raises, the call
    ends in the same HTTP 400 "Invalid disk path" naming the path. *)
Theorem get_disk_info_io_failure (h : host) (t : log) (path : string)
    (usage : sdiskusage) (e : exn) :
  h_disk_usage h (List.length t) path = Ok usage ->
  h_disk_io_counters h (S (List.length t)) = Raise e ->
  get_disk_info path h t =
    (Raise (HTTPException 400 ("Invalid disk path: " ++ path)),
     (t ++ [c_disk_usage path; c_disk_io_counters])%list).
Proof.
  intros Hu Hio. run_goal. rewrite Hu. cbn beta iota.
  rewrite ?length_app; cbn [List.length]; rewrite ?Nat.add_1_r.
  rewrite Hio. cbn beta iota. now rewrite <- app_assoc.
Qed.

Lemma get_disk_info_io_failure_witness :
  get_disk_info "/tmp" no_diskstats_host [] =
    (Raise (HTTPException 400 "Invalid disk path: /tmp"),
     [c_disk_usage "/tmp"; c_disk_io_counters]).
Proof.
  eapply (get_disk_info_io_failure no_diskstats_host [] "/tmp"); reflexivity.
Defined.

Lemma timestamped_run (name : string) (m : M value) (h : host) (t : log) :
  bind timestamp_now
    (fun timestamp =>
       bind m (fun x => ret (VDict [ ("timestamp", timestamp); (name, x) ]))) h t =
  match m h (t ++ [c_now])%list with
  | (Ok x, t') =>
      (Ok (VDict [ ("timestamp", VStr (isoformat (h_now h (List.length t))));
                   (name, x) ]), t')
  | (Raise e, t') => (Raise e, t')
  end.
Proof.
  unfold timestamp_now, datetime_now.
  unfold bind at 1 2. unfold sys, ret at 1. cbn beta iota.
  unfold bind, ret. now destruct (m h (t ++ [c_now])%list) as [[x|e] t'].
Qed.

(** X5.  GET /metrics/disk for a path that cannot be stat'ed: the clock is
    read, the disk usage is asked for, and the request ends in the HTTP 400
    "Invalid disk path" naming the path; no body is returned. *)
Theorem get_disk_invalid_path (h : host) (t : log) (path : string) (e : exn) :
  h_disk_usage h (S (List.length t)) path = Raise e ->
  get_disk path h t =
    (Raise (HTTPException 400 ("Invalid disk path: " ++ path)),
     (t ++ [c_now; c_disk_usage path])%list).
Proof.
  intro H. unfold get_disk. rewrite timestamped_run.
  run_goal. rewrite H. now rewrite <- app_assoc.
Qed.

Lemma get_disk_invalid_path_witness :
  get_disk "/nonexistent/path/that/does/not/exist" sample_host [] =
    (Raise (HTTPException 400 "Invalid disk path: /nonexistent/path/that/does/not/exist"),
     [c_now; c_disk_usage "/nonexistent/path/that/does/not/exist"]).
Proof.
  apply (get_disk_invalid_path sample_host [] "/nonexistent/path/that/does/not/exist"
           (OSError "No such file or directory")).
  reflexivity.
Defined.

(** X6.  GET /metrics/disk for a path that can be stat'ed reads the clock,
    the disk usage and the I/O counters.  When the counters can be read, it
    returns a body of two entries, the timestamp read before the sampling
    and the disk dictionary, whose "path" is the path of the request; when
    reading them raises, it ends in the HTTP 400 "Invalid disk path" naming
    the path. *)
Theorem get_disk_body (h : host) (t : log) (path : string) (usage : sdiskusage) :
  h_disk_usage h (S (List.length t)) path = Ok usage ->
  match h_disk_io_counters h (S (S (List.length t))) with
  | Ok io =>
      exists disk,
        get_disk path h t =
          (Ok (VDict [ ("timestamp", VStr (isoformat (h_now h (List.length t))));
                       ("disk", disk) ]),
           (t ++ [c_now; c_disk_usage path; c_disk_io_counters])%list) /\
        subscript disk "path" = Ok (VStr path) /\
        subscript disk "percent" = Ok (VFloat (round2 (du_percent usage)))
  | Raise e =>
      get_disk path h t =
        (Raise (HTTPException 400 ("Invalid disk path: " ++ path)),
         (t ++ [c_now; c_disk_usage path; c_disk_io_counters])%list)
  end.
Proof.
  intros Hu.
  destruct (h_disk_io_counters h (S (S (List.length t)))) as [io|e] eqn:Hio.
  - unfold get_disk. rewrite timestamped_run.
    run_goal. rewrite Hu. cbn beta iota.
    rewrite ?length_app; cbn [List.length]; rewrite ?Nat.add_1_r.
    rewrite Hio. cbn beta iota. rewrite <- !app_assoc. cbn [app].
    eexists. split; [reflexivity |]. destruct io; split; reflexivity.
  - unfold get_disk. rewrite timestamped_run.
    run_goal. rewrite Hu. cbn beta iota.
    rewrite ?length_app; cbn [List.length]; rewrite ?Nat.add_1_r.
    rewrite Hio. cbn beta iota. now rewrite <- !app_assoc.
Qed.

Lemma get_disk_body_witness :
  exists disk,
    get_disk "/tmp" sample_host [] =
      (Ok (VDict [ ("timestamp", VStr "2023-11-14T23:13:20+00:00");
                   ("disk", disk) ]),
       [c_now; c_disk_usage "/tmp"; c_disk_io_counters]) /\
    subscript disk "path" = Ok (VStr "/tmp") /\
    subscript disk "percent" = Ok (VFloat (round2 40)).
Proof.
  apply (get_disk_body sample_host [] "/tmp"
           {| du_total := 100000000000; du_used := 40000000000;
              du_free := 60000000000; du_percent := 40 |}).
  reflexivity.
Defined.

(** ** The process ranking, further *)

Lemma slice_to_length_exact {A : Type} (l : list A) (n : Z) :
  List.length (slice_to l n) = slice_length (List.length l) n.
Proof.
  unfold slice_to, slice_length. destruct (0 <=? n) eqn:E; rewrite length_firstn.
  - reflexivity.
  - apply Z.leb_gt in E. lia.
Qed.

Lemma sorted_reverse_perm {A : Type} (key : A -> result Q) (l ranked : list A) :
  sorted_reverse key l = Ok ranked -> Permutation l ranked.
Proof.
  unfold sorted_reverse. destruct (decorate key l) as [kl|] eqn:E; [| discriminate].
  intro H. injection H as <-.
  destruct (decorate_spec _ _ _ E) as [Hm _]. rewrite <- Hm.
  apply Permutation_map, sort_desc_perm.
Qed.

Lemma StronglySorted_app_dominates {A : Type} (R : A -> A -> Prop) (l1 l2 : list A) :
  StronglySorted R (l1 ++ l2) -> forall a b, In a l1 -> In b l2 -> R a b.
Proof.
  induction l1 as [|x l1 IH]; cbn; intros H a b Ha Hb; [contradiction |].
  inversion H as [|? ? Hs Hf]; subst. destruct Ha as [<- | Ha].
  - rewrite Forall_forall in Hf. apply Hf, in_or_app. now right.
  - now apply IH.
Qed.

Lemma proc_entry_closed (i : pinfo) : proc_entry (Ok i) = Ok (entry_of i).
Proof.
  unfold proc_entry, entry_of, rounded_or_zero.
  destruct (pi_cpu_percent i) as [c|]; destruct (pi_memory_percent i) as [m|]; cbn;
    repeat match goal with |- context [Qeq_bool ?q 0] => destruct (Qeq_bool q 0) end;
    reflexivity.
Qed.

Lemma collect_procs_filter (rows : list (result pinfo)) :
  forallb table_row rows = true ->
  collect_procs rows = Ok (map entry_of
    (flat_map (fun p => match p with Ok i => [i] | Raise _ => [] end) rows)).
Proof.
  induction rows as [|p rows IH]; cbn [forallb collect_procs flat_map]; [reflexivity |].
  intro H. apply andb_true_iff in H as [Hp Hr]. specialize (IH Hr).
  destruct p as [i|e].
  - rewrite proc_entry_closed, IH. reflexivity.
  - cbn [proc_entry]. destruct e; try discriminate; exact IH.
Qed.

Lemma readable_infos (rows : list (result pinfo)) :
  flat_map (fun p => match p with Ok i => [i] | Raise _ => [] end) rows =
  flat_map (fun p => match p with Ok i => [i] | Raise _ => [] end) (filter readable rows).
Proof.
  induction rows as [|[i|e] rows IH]; cbn; [reflexivity | now f_equal | exact IH].
Qed.

Lemma collect_procs_raise (pre post : list (result pinfo)) (e : exn) :
  forallb table_row pre = true -> passed_over e = false ->
  collect_procs (pre ++ Raise e :: post) = Raise e.
Proof.
  intros Hpre He. induction pre as [|p pre IH]; cbn [app forallb collect_procs] in *.
  - cbn [proc_entry]. destruct e; try discriminate; reflexivity.
  - apply andb_true_iff in Hpre as [Hp Hr]. rewrite (IH Hr).
    destruct p as [i|e0].
    + now rewrite proc_entry_closed.
    + cbn [proc_entry]. destruct e0; try discriminate; reflexivity.
Qed.

(** X7.  The number of entries [get_top_processes] returns is the length of
    the slice [procs[:limit]] of the readable rows: the smaller of [limit]
    and their number for a limit that is not negative (none for 0), and
    their number less [-limit], or none, for a negative limit. *)
Theorem get_top_processes_length (h : host) (t : log) (limit : Z)
    (rows : list (result pinfo)) :
  h_process_iter h (List.length t) = Ok rows ->
  forallb table_row rows = true ->
  exists ps,
    get_top_processes limit h t = (Ok ps, (t ++ [c_process_iter])%list) /\
    let n := List.length (filter readable rows) in
    List.length ps = slice_length n limit /\
    (0 <= limit -> Z.of_nat (List.length ps) = Z.min limit (Z.of_nat n)) /\
    (limit < 0 -> Z.of_nat (List.length ps) = Z.max 0 (Z.of_nat n + limit)).
Proof.
  intros Hr Ht.
  destruct (get_top_processes_Ok h t limit rows Hr Ht) as (procs & ranked & Hp & Hs & Hrun).
  exists (slice_to ranked limit). split; [exact Hrun |].
  cbv zeta.
  assert (Hn : List.length ranked = List.length (filter readable rows)).
  { rewrite <- (collect_procs_length rows procs Hp).
    symmetry. apply Permutation_length. eapply sorted_reverse_perm, Hs. }
  rewrite slice_to_length_exact, Hn. split; [reflexivity |].
  unfold slice_length. split; intro Hl.
  - rewrite (proj2 (Z.leb_le 0 limit) Hl). lia.
  - rewrite (proj2 (Z.leb_gt 0 limit) Hl). lia.
Qed.

Lemma get_top_processes_length_witness :
  exists ps,
    get_top_processes (-3) sample_host [] = (Ok ps, [c_process_iter]) /\
    List.length ps = 1%nat /\
    (0 <= -3 -> Z.of_nat (List.length ps) = Z.min (-3) 4) /\
    (-3 < 0 -> Z.of_nat (List.length ps) = Z.max 0 (4 + -3)).
Proof.
  apply (get_top_processes_length sample_host [] (-3) sample_rows); reflexivity.
Defined.

(** X8.  [get_top_processes] returns the top of the ranking: together with
    the entries it leaves out, the entries it returns are the entries read
    from the table, and no entry left out has a greater cpu_percent than an
    entry returned. *)
Theorem get_top_processes_top (h : host) (t : log) (limit : Z)
    (rows : list (result pinfo)) :
  h_process_iter h (List.length t) = Ok rows ->
  forallb table_row rows = true ->
  exists procs ps rest,
    collect_procs rows = Ok procs /\
    get_top_processes limit h t = (Ok ps, (t ++ [c_process_iter])%list) /\
    Permutation procs (ps ++ rest) /\
    forall p q, In p ps -> In q rest -> (cpu_percent_of q <= cpu_percent_of p)%Q.
Proof.
  intros Hr Ht.
  destruct (get_top_processes_Ok h t limit rows Hr Ht) as (procs & ranked & Hp & Hs & Hrun).
  destruct (collect_procs_spec rows procs Hp) as [_ Hk].
  destruct (sorted_reverse_cpu procs Hk) as (ranked' & Hs' & _ & Hsorted & _).
  rewrite Hs in Hs'. injection Hs' as <-.
  destruct (slice_to_prefix ranked limit) as [rest Hrest].
  exists procs, (slice_to ranked limit), rest.
  split; [exact Hp |]. split; [exact Hrun |]. split.
  - rewrite <- Hrest. eapply sorted_reverse_perm, Hs.
  - rewrite Hrest in Hsorted.
    exact (StronglySorted_app_dominates cpu_desc _ _ Hsorted).
Qed.

Lemma get_top_processes_top_witness :
  exists procs ps rest,
    collect_procs sample_rows = Ok procs /\
    get_top_processes 1 sample_host [] = (Ok ps, [c_process_iter]) /\
    Permutation procs (ps ++ rest) /\
    forall p q, In p ps -> In q rest -> (cpu_percent_of q <= cpu_percent_of p)%Q.
Proof.
  apply (get_top_processes_top sample_host [] 1 sample_rows); reflexivity.
Defined.

(** X9.  The rows that are passed over leave no trace: two process tables
    with the same readable rows, in the same order, give the same result,
    whatever processes have exited or may not be inspected in either. *)
Theorem get_top_processes_readable_only (h1 h2 : host) (t1 t2 : log) (limit : Z)
    (rows1 rows2 : list (result pinfo)) :
  h_process_iter h1 (List.length t1) = Ok rows1 ->
  h_process_iter h2 (List.length t2) = Ok rows2 ->
  forallb table_row rows1 = true ->
  forallb table_row rows2 = true ->
  filter readable rows1 = filter readable rows2 ->
  exists ps,
    get_top_processes limit h1 t1 = (Ok ps, (t1 ++ [c_process_iter])%list) /\
    get_top_processes limit h2 t2 = (Ok ps, (t2 ++ [c_process_iter])%list).
Proof.
  intros H1 H2 T1 T2 E.
  destruct (get_top_processes_Ok h1 t1 limit rows1 H1 T1) as (p1 & r1 & Hp1 & Hs1 & Hrun1).
  destruct (get_top_processes_Ok h2 t2 limit rows2 H2 T2) as (p2 & r2 & Hp2 & Hs2 & Hrun2).
  rewrite (collect_procs_filter rows1 T1), readable_infos in Hp1.
  rewrite (collect_procs_filter rows2 T2), readable_infos in Hp2.
  rewrite E in Hp1. rewrite Hp1 in Hp2. injection Hp2 as <-.
  rewrite Hs1 in Hs2. injection Hs2 as <-.
  exists (slice_to r1 limit). split; assumption.
Qed.

Lemma get_top_processes_readable_only_witness :
  exists ps,
    get_top_processes 3 (host_with_rows sample_rows) [] = (Ok ps, [c_process_iter]) /\
    get_top_processes 3 (host_with_rows sample_rows_denied) [c_now] =
      (Ok ps, [c_now; c_process_iter]).
Proof.
  apply (get_top_processes_readable_only
           (host_with_rows sample_rows) (host_with_rows sample_rows_denied)
           [] [c_now] 3 sample_rows sample_rows_denied);
    reflexivity.
Defined.

(** X10.  Only [NoSuchProcess] and [AccessDenied] are passed over: when the
    first row that raises anything else is reached, [get_top_processes]
    raises that exception and returns no list. *)
Theorem get_top_processes_unexpected (h : host) (t : log) (limit : Z)
    (pre post : list (result pinfo)) (e : exn) :
  h_process_iter h (List.length t) = Ok (pre ++ Raise e :: post)%list ->
  forallb table_row pre = true ->
  passed_over e = false ->
  get_top_processes limit h t = (Raise e, (t ++ [c_process_iter])%list).
Proof.
  intros Hr Hpre He.
  unfold get_top_processes, bind, psutil_process_iter, sys, lift, ret.
  now rewrite Hr, (collect_procs_raise pre post e Hpre He).
Qed.

Lemma get_top_processes_unexpected_witness :
  get_top_processes 5 (host_with_rows sample_rows_broken) [] =
    (Raise (KeyError "cpu_percent"), [c_process_iter]).
Proof.
  apply (get_top_processes_unexpected (host_with_rows sample_rows_broken) [] 5
           (firstn 3 sample_rows) (skipn 3 sample_rows) (KeyError "cpu_percent"));
    reflexivity.
Defined.

(** X11.  Every entry [get_top_processes] returns is the entry of a readable
    row of the table: its pid, name and status are those of the process,
    and its cpu_percent and memory_percent are the samples rounded to two
    decimals, or the integer 0 where the sample is missing or zero. *)
Theorem get_top_processes_entries (h : host) (t t' : log) (limit : Z)
    (rows : list (result pinfo)) (ps : list value) :
  h_process_iter h (List.length t) = Ok rows ->
  get_top_processes limit h t = (Ok ps, t') ->
  Forall (fun p => exists i, In (Ok i) rows /\ p = entry_of i) ps.
Proof.
  intros Hr. unfold get_top_processes, bind, psutil_process_iter, sys, lift, ret.
  rewrite Hr.
  destruct (collect_procs rows) as [procs|] eqn:Ep; [| discriminate].
  destruct (sorted_reverse cpu_key procs) as [ranked|] eqn:Es; [| discriminate].
  intro H. injection H as <- _.
  apply slice_to_Forall. eapply sorted_reverse_Forall; [exact Es |].
  clear Es Hr. revert procs Ep.
  induction rows as [|p rows IH]; cbn [collect_procs]; intros procs H.
  - injection H as <-. constructor.
  - assert (Hweak : forall l,
        Forall (fun p0 => exists i, In (Ok i) rows /\ p0 = entry_of i) l ->
        Forall (fun p0 => exists i, In (Ok i) (p :: rows) /\ p0 = entry_of i) l).
    { intros l Hl. eapply Forall_impl; [| exact Hl].
      intros a (i & Hi & ->). exists i. split; [now right | reflexivity]. }
    destruct p as [i|e].
    + rewrite proc_entry_closed in H.
      destruct (collect_procs rows) as [ds|]; [| discriminate].
      injection H as <-. constructor; [| now apply Hweak, IH].
      exists i. split; [now left | reflexivity].
    + cbn [proc_entry] in H. destruct e; try discriminate; now apply Hweak, IH.
Qed.

Lemma get_top_processes_entries_witness :
  Forall (fun p => exists i, In (Ok i) sample_rows /\ p = entry_of i)
    (match fst (get_top_processes 5 sample_host []) with
     | Ok ps => ps | Raise _ => [] end).
Proof.
  apply (get_top_processes_entries sample_host [] [c_process_iter] 5 sample_rows);
    reflexivity.
Defined.

(** The entries with the cpu_percent the sort reads for them. *)
Lemma decorate_cpu (procs : list value) (kl : list (Q * value)) :
  decorate cpu_key procs = Ok kl ->
  kl = map (fun x => (cpu_percent_of x, x)) procs.
Proof.
  revert kl. induction procs as [|x procs IH]; cbn [decorate map]; intros kl H.
  - now injection H as <-.
  - unfold cpu_percent_of at 1.
    destruct (cpu_key x) as [k|]; [| discriminate].
    destruct (decorate cpu_key procs) as [kl'|]; [| discriminate].
    injection H as <-. now rewrite (IH _ eq_refl).
Qed.

Lemma keyed_sorted (l : list value) :
  StronglySorted cpu_desc l ->
  StronglySorted desc (map (fun x => (cpu_percent_of x, x)) l).
Proof.
  induction 1 as [|x l Hs IH Hx]; cbn; constructor; [exact IH |].
  apply Forall_map. eapply Forall_impl; [| exact Hx]. now intros y Hy.
Qed.

Lemma keyed_filter (k : Q) (l : list value) :
  filter (with_key k) (map (fun x => (cpu_percent_of x, x)) l) =
  map (fun x => (cpu_percent_of x, x)) (filter (cpu_is k) l).
Proof.
  induction l as [|x l IH]; cbn; [reflexivity |].
  unfold with_key at 1, cpu_is at 1. cbn [fst].
  destruct (Qeq_bool (cpu_percent_of x) k); cbn; now rewrite IH.
Qed.

(** X12.  The ranking is determined by its two properties: any list in
    descending order of cpu_percent that keeps, for every value of
    cpu_percent, the entries of that value in the order of the enumeration
    has [get_top_processes limit] as its slice [[:limit]]. *)
Theorem get_top_processes_unique (h : host) (t : log) (limit : Z)
    (rows : list (result pinfo)) :
  h_process_iter h (List.length t) = Ok rows ->
  forallb table_row rows = true ->
  exists procs ps,
    collect_procs rows = Ok procs /\
    get_top_processes limit h t = (Ok ps, (t ++ [c_process_iter])%list) /\
    forall l,
      StronglySorted cpu_desc l ->
      (forall k, filter (cpu_is k) l = filter (cpu_is k) procs) ->
      slice_to l limit = ps.
Proof.
  intros Hr Ht.
  destruct (get_top_processes_Ok h t limit rows Hr Ht) as (procs & ranked & Hp & Hs & Hrun).
  exists procs, (slice_to ranked limit).
  split; [exact Hp |]. split; [exact Hrun |].
  intros l Hsorted Hstable. f_equal.
  unfold sorted_reverse in Hs.
  destruct (decorate cpu_key procs) as [kl|] eqn:Ek; [| discriminate].
  injection Hs as <-. rewrite (decorate_cpu _ _ Ek).
  rewrite <- (stable_sort_unique
                (map (fun x => (cpu_percent_of x, x)) procs)
                (map (fun x => (cpu_percent_of x, x)) l)).
  - rewrite map_map. cbn [snd]. symmetry. apply map_id.
  - now apply keyed_sorted.
  - intro k. now rewrite !keyed_filter, Hstable.
Qed.

Lemma get_top_processes_unique_witness :
  exists procs ps,
    collect_procs sample_rows = Ok procs /\
    get_top_processes 2 sample_host [] = (Ok ps, [c_process_iter]) /\
    forall l,
      StronglySorted cpu_desc l ->
      (forall k, filter (cpu_is k) l = filter (cpu_is k) procs) ->
      slice_to l 2 = ps.
Proof.
  apply (get_top_processes_unique sample_host [] 2 sample_rows); reflexivity.
Defined.

(** X13.  In the body of GET /processes the count is the number of
    processes listed exactly when the limit lies between 0 and the number
    of readable rows; for a larger limit, and for a negative one, the two
    differ. *)
Theorem get_processes_count_exact (h : host) (t : log) (limit : Z)
    (rows : list (result pinfo)) :
  limit <= 50 ->
  h_process_iter h (S (List.length t)) = Ok rows ->
  forallb table_row rows = true ->
  exists timestamp ps,
    get_processes limit h t =
      (Ok (VDict [ ("timestamp", timestamp);
                   ("count", VInt limit);
                   ("processes", VList ps) ]),
       (t ++ [c_now; c_process_iter])%list) /\
    (limit = Z.of_nat (List.length ps) <->
     0 <= limit <= Z.of_nat (List.length (filter readable rows))).
Proof.
  intros Hl Hr Ht.
  assert (Hr' : h_process_iter h (List.length (t ++ [c_now])%list) = Ok rows)
    by (rewrite length_app, Nat.add_comm; exact Hr).
  destruct (get_top_processes_Ok h _ limit rows Hr' Ht) as (procs & ranked & Hp & Hs & Hrun).
  exists (VStr (isoformat (h_now h (List.length t)))), (slice_to ranked limit).
  split; [now apply get_processes_run |].
  assert (Hn : List.length ranked = List.length (filter readable rows)).
  { rewrite <- (collect_procs_length rows procs Hp).
    symmetry. apply Permutation_length. eapply sorted_reverse_perm, Hs. }
  rewrite slice_to_length_exact, Hn. unfold slice_length.
  destruct (0 <=? limit) eqn:E.
  - apply Z.leb_le in E. lia.
  - apply Z.leb_gt in E. lia.
Qed.

Lemma get_processes_count_exact_witness :
  exists timestamp ps,
    get_processes (-1) sample_host [] =
      (Ok (VDict [ ("timestamp", timestamp);
                   ("count", VInt (-1));
                   ("processes", VList ps) ]),
       [c_now; c_process_iter]) /\
    (-1 = Z.of_nat (List.length ps) <-> 0 <= -1 <= 4).
Proof.
  apply (get_processes_count_exact sample_host [] (-1) sample_rows);
    [lia | reflexivity | reflexivity].
Defined.

(** ** The calls of the collectors *)

Lemma get_cpu_info_log (h : host) (t t' : log) (v : value) :
  get_cpu_info h t = (Ok v, t') ->
  t' = (t ++ [ c_cpu_percent 1 false; c_cpu_percent (1 # 10) true;
               c_cpu_count true; c_cpu_count false; c_getloadavg ])%list.
Proof.
  unfold get_cpu_info, bind, psutil_cpu_percent, psutil_cpu_percent_percpu,
    psutil_cpu_count, psutil_getloadavg, sys, ret.
  cbn beta iota.
  repeat match goal with
    | |- context [match ?x with Ok _ => _ | Raise _ => _ end] =>
        destruct x; cbn beta iota; try discriminate
    | |- context [match ?x with (_, _) => _ end] => destruct x; cbn beta iota
    end.
  intro H. injection H as _ <-. now rewrite <- !app_assoc.
Qed.

Lemma get_memory_info_log (h : host) (t t' : log) (v : value) :
  get_memory_info h t = (Ok v, t') ->
  t' = (t ++ [c_virtual_memory; c_swap_memory])%list.
Proof.
  unfold get_memory_info, bind, psutil_virtual_memory, psutil_swap_memory, sys, ret.
  cbn beta iota.
  repeat match goal with
    | |- context [match ?x with Ok _ => _ | Raise _ => _ end] =>
        destruct x; cbn beta iota; try discriminate
    end.
  intro H. injection H as _ <-. now rewrite <- !app_assoc.
Qed.

Lemma get_top_processes_log (h : host) (t t' : log) (limit : Z) (ps : list value) :
  get_top_processes limit h t = (Ok ps, t') ->
  t' = (t ++ [c_process_iter])%list.
Proof.
  unfold get_top_processes, bind, psutil_process_iter, sys, lift, ret.
  destruct (h_process_iter h (List.length t)) as [rows|]; [| discriminate].
  destruct (collect_procs rows); [| discriminate].
  destruct (sorted_reverse cpu_key _); [| discriminate].
  intro H. now injection H as _ <-.
Qed.

(** A successful GET /metrics, call by call. *)
Lemma get_all_metrics_inv (h : host) (t t' : log) (body : value) :
  get_all_metrics h t = (Ok body, t') ->
  exists system cpu memory disk network top t1 t2 t3 t4 t5,
    get_system_info h (t ++ [c_now])%list = (Ok system, t1) /\
    get_cpu_info h t1 = (Ok cpu, t2) /\
    get_memory_info h t2 = (Ok memory, t3) /\
    get_disk_info "/" h t3 = (Ok disk, t4) /\
    get_network_info h t4 = (Ok network, t5) /\
    get_top_processes 5 h t5 = (Ok top, t') /\
    body = VDict
      [ ("timestamp", VStr (isoformat (h_now h (List.length t))));
        ("system", system); ("cpu", cpu); ("memory", memory);
        ("disk", disk); ("network", network);
        ("top_processes", VList top) ].
Proof.
  unfold get_all_metrics, timestamp_now, datetime_now.
  unfold bind at 1 2. unfold sys at 1, ret at 1. cbn beta iota.
  unfold bind, ret.
  destruct (get_system_info h _) as [[system|] t1] eqn:Es; [| discriminate].
  destruct (get_cpu_info h t1) as [[cpu|] t2] eqn:Ec; [| discriminate].
  destruct (get_memory_info h t2) as [[memory|] t3] eqn:Em; [| discriminate].
  destruct (get_disk_info "/" h t3) as [[disk|] t4] eqn:Ed; [| discriminate].
  destruct (get_network_info h t4) as [[network|] t5] eqn:En; [| discriminate].
  destruct (get_top_processes 5 h t5) as [[top|] t6] eqn:Ep; [| discriminate].
  intro H. injection H as <- <-.
  exists system, cpu, memory, disk, network, top, t1, t2, t3, t4, t5.
  repeat split; assumption.
Qed.

(** X14.  A GET /metrics that succeeds has made twenty calls, in this
    order: the clock for the timestamp, then the calls of the system, cpu
    (one second, then a tenth of a second per core), memory, disk (of "/"),
    network and process collections, each finished before the next
    starts. *)
Theorem get_all_metrics_calls (h : host) (t t' : log) (body : value) :
  get_all_metrics h t = (Ok body, t') ->
  t' = (t ++ metrics_calls)%list.
Proof.
  intro H.
  destruct (get_all_metrics_inv _ _ _ _ H)
    as (system & cpu & memory & disk & network & top & t1 & t2 & t3 & t4 & t5 &
        Hs & Hc & Hm & Hd & Hn & Hp & _).
  destruct (get_system_info_inv _ _ _ _ Hs) as (_ & _ & _ & _ & _ & _ & -> & _).
  rewrite (get_cpu_info_log _ _ _ _ Hc) in Hm.
  rewrite (get_memory_info_log _ _ _ _ Hm) in Hd.
  destruct (get_disk_info_inv _ _ _ _ _ Hd) as (_ & _ & _ & _ & _ & -> & _).
  destruct (get_network_info_inv_source _ _ _ _ Hn) as (_ & _ & -> & _).
  rewrite (get_top_processes_log _ _ _ _ _ Hp).
  unfold metrics_calls. now rewrite <- !app_assoc.
Qed.

Lemma get_all_metrics_calls_witness :
  snd (get_all_metrics sample_host []) = metrics_calls.
Proof.
  apply (get_all_metrics_calls sample_host [] (snd (get_all_metrics sample_host []))
           (match fst (get_all_metrics sample_host []) with
            | Ok body => body | Raise _ => VNone end)).
  reflexivity.
Defined.

(** X15.  In the aggregate of GET /metrics the disk section is the one of
    the root directory, and the process list has at most five entries, in
    descending order of cpu_percent. *)
Theorem get_all_metrics_defaults (h : host) (t t' : log) (body : value) :
  get_all_metrics h t = (Ok body, t') ->
  exists disk top,
    subscript body "disk" = Ok disk /\
    subscript disk "path" = Ok (VStr "/") /\
    subscript body "top_processes" = Ok (VList top) /\
    (List.length top <= 5)%nat /\
    StronglySorted cpu_desc top.
Proof.
  intro H.
  destruct (get_all_metrics_inv _ _ _ _ H)
    as (system & cpu & memory & disk & network & top & t1 & t2 & t3 & t4 & t5 &
        _ & _ & _ & Hd & _ & Hp & ->).
  exists disk, top. split; [reflexivity |].
  split.
  { destruct (get_disk_info_inv _ _ _ _ _ Hd) as (? & ? & ? & _ & _ & _ & _ & ->).
    reflexivity. }
  split; [reflexivity |].
  revert Hp. unfold get_top_processes, bind, psutil_process_iter, sys, lift, ret.
  destruct (h_process_iter h (List.length t5)) as [rows|]; [| discriminate].
  destruct (collect_procs rows) as [procs|] eqn:Ep; [| discriminate].
  destruct (sorted_reverse cpu_key procs) as [ranked|] eqn:Es; [| discriminate].
  intro Hp. injection Hp as <- _.
  split.
  - pose proof (slice_to_length_limit ranked 5 ltac:(lia)). lia.
  - destruct (collect_procs_spec rows procs Ep) as [_ Hk].
    destruct (sorted_reverse_cpu procs Hk) as (ranked' & Hs' & _ & Hsorted & _).
    rewrite Es in Hs'. injection Hs' as <-.
    destruct (slice_to_prefix ranked 5) as [rest Hrest].
    apply StronglySorted_app_l with rest. now rewrite <- Hrest.
Qed.

Lemma get_all_metrics_defaults_witness :
  exists disk top,
    subscript (match fst (get_all_metrics sample_host []) with
               | Ok body => body | Raise _ => VNone end) "disk" = Ok disk /\
    subscript disk "path" = Ok (VStr "/") /\
    subscript (match fst (get_all_metrics sample_host []) with
               | Ok body => body | Raise _ => VNone end) "top_processes" = Ok (VList top) /\
    (List.length top <= 5)%nat /\
    StronglySorted cpu_desc top.
Proof.
  apply (get_all_metrics_defaults sample_host [] (snd (get_all_metrics sample_host []))).
  reflexivity.
Defined.

(** ** Failures of the system and CPU collections *)

Lemma get_system_info_run (h : host) (t : log) (bt : Q)
    (boot_time : datetime) (pids : list Z) :
  h_boot_time h (List.length t) = Ok bt ->
  fromtimestamp bt = Ok boot_time ->
  h_pids h (7 + List.length t) = Ok pids ->
  get_system_info h t =
    (Ok (VDict
      [ ("hostname", VStr (h_platform h (2 + List.length t) "node"));
        ("os", VStr (h_platform h (3 + List.length t) "system"));
        ("os_release", VStr (h_platform h (4 + List.length t) "release"));
        ("architecture", VStr (h_platform h (5 + List.length t) "machine"));
        ("python_version", VStr (h_platform h (6 + List.length t) "python_version"));
        ("boot_time", VStr (isoformat boot_time));
        ("uptime_seconds",
         VInt (int_total_seconds (h_now h (1 + List.length t)) boot_time));
        ("process_count", VInt (Z.of_nat (List.length pids))) ]),
     (t ++ [ c_boot_time; c_now; c_platform "node"; c_platform "system";
             c_platform "release"; c_platform "machine";
             c_platform "python_version"; c_pids ])%list).
Proof.
  intros Hb Hf Hp. cbn [Nat.add] in *.
  run_goal. rewrite Hb. cbn beta iota. rewrite Hf. cbn beta iota.
  rewrite ?length_app; cbn [List.length]; rewrite ?Nat.add_1_r.
  rewrite Hp. rewrite <- !app_assoc. reflexivity.
Qed.

(** A boot time that [fromtimestamp] refuses ends the collection. *)
Lemma get_system_info_out_of_range (h : host) (t : log) (bt : Q) (e : exn) :
  h_boot_time h (List.length t) = Ok bt ->
  fromtimestamp bt = Raise e ->
  get_system_info h t = (Raise e, (t ++ [c_boot_time])%list).
Proof.
  intros Hb Hf. run_goal. rewrite Hb. cbn beta iota. now rewrite Hf.
Qed.

(** X16.  [get_system_info] raises in three cases only, and then raises
    the exception it met, unchanged: the host cannot give the boot time
    (nothing else has been read), the boot time is not an instant a
    [datetime] can hold ([fromtimestamp] raises, nothing else has been
    read), or the host cannot give the list of pids. *)
Theorem get_system_info_failure (h : host) (t : log) :
  (forall e,
     h_boot_time h (List.length t) = Raise e ->
     get_system_info h t = (Raise e, (t ++ [c_boot_time])%list)) /\
  (forall bt e,
     h_boot_time h (List.length t) = Ok bt ->
     fromtimestamp bt = Raise e ->
     get_system_info h t = (Raise e, (t ++ [c_boot_time])%list)) /\
  (forall bt boot_time e,
     h_boot_time h (List.length t) = Ok bt ->
     fromtimestamp bt = Ok boot_time ->
     h_pids h (7 + List.length t) = Raise e ->
     get_system_info h t =
       (Raise e,
        (t ++ [ c_boot_time; c_now; c_platform "node"; c_platform "system";
                c_platform "release"; c_platform "machine";
                c_platform "python_version"; c_pids ])%list)) /\
  (forall e t',
     get_system_info h t = (Raise e, t') ->
     h_boot_time h (List.length t) = Raise e \/
     (exists bt, h_boot_time h (List.length t) = Ok bt /\ fromtimestamp bt = Raise e) \/
     h_pids h (7 + List.length t) = Raise e).
Proof.
  split; [| split; [| split]].
  - intros e Hb. run_goal. now rewrite Hb.
  - intros bt e. apply get_system_info_out_of_range.
  - intros bt boot_time e Hb Hf Hp. cbn [Nat.add] in *.
    run_goal. rewrite Hb. cbn beta iota. rewrite Hf. cbn beta iota.
    rewrite ?length_app; cbn [List.length]; rewrite ?Nat.add_1_r.
    rewrite Hp. now rewrite <- !app_assoc.
  - intros e t'. cbn [Nat.add]. run_goal.
    destruct (h_boot_time h (List.length t)) as [bt|e0]; cbn beta iota.
    + destruct (fromtimestamp bt) as [boot_time|e1] eqn:Ef; cbn beta iota.
      * rewrite ?length_app; cbn [List.length]; rewrite ?Nat.add_1_r.
        destruct (h_pids h _) as [pids|e2]; [discriminate |].
        intro H. injection H as <- _. now right; right.
      * intro H. injection H as <- _. right; left. now exists bt.
    + intro H. injection H as <- _. now left.
Qed.

Lemma get_system_info_failure_witness :
  get_system_info far_boot_host [] =
    (Raise (ValueError "year 33658 is out of range"), [c_boot_time]).
Proof.
  apply (proj1 (proj2 (get_system_info_failure far_boot_host []))
           (inject_Z 1000000000000));
    reflexivity.
Defined.



(** ** GET /health *)

Lemma append_assoc (a b c : string) : ((a ++ b) ++ c = a ++ b ++ c)%string.
Proof. induction a as [|x a IH]; cbn; [reflexivity | now rewrite IH]. Qed.

Lemma lacks_append (c : ascii) (a b : string) :
  lacks c (a ++ b) = lacks c a && lacks c b.
Proof.
  unfold lacks. induction a as [|x a IH]; cbn; [reflexivity |].
  now rewrite IH, andb_assoc.
Qed.

Lemma digit_not_plus (n : Z) : Ascii.eqb (digit n) "+" = false.
Proof.
  unfold digit.
  assert (H : (Z.to_nat (n mod 10) < 10)%nat)
    by (pose proof (Z.mod_pos_bound n 10 ltac:(lia)); lia).
  destruct (Z.to_nat (n mod 10)) as [|k]; [reflexivity |].
  do 9 (destruct k as [|k]; [reflexivity |]). lia.
Qed.

Lemma zfill_lacks_plus (width : nat) (n : Z) : lacks "+" (zfill width n) = true.
Proof.
  revert n. induction width as [|w IH]; intro n; cbn [zfill]; [reflexivity |].
  rewrite lacks_append, IH. unfold lacks. cbn [chars forallb andb].
  now rewrite digit_not_plus.
Qed.

(** The rendering of an instant ends with the offset of UTC, and has no
    other plus sign. *)
Lemma isoformat_offset (dt : datetime) :
  exists body, isoformat dt = (body ++ "+00:00")%string /\ lacks "+" body = true.
Proof.
  unfold isoformat. cbv zeta.
  destruct (civil_of_days (dt / 86400000000)) as [[y m] d].
  set (secs := dt mod 86400000000 / 1000000).
  set (micro := (dt mod 86400000000) mod 1000000).
  exists (zfill 4 y ++ "-" ++ zfill 2 m ++ "-" ++ zfill 2 d ++ "T"
          ++ zfill 2 (secs / 3600) ++ ":" ++ zfill 2 (secs / 60 mod 60) ++ ":"
          ++ zfill 2 (secs mod 60)
          ++ (if (micro =? 0)%Z then "" else "." ++ zfill 6 micro))%string.
  split.
  - now rewrite !append_assoc.
  - rewrite !lacks_append, !zfill_lacks_plus.
    destruct (micro =? 0); [reflexivity |].
    now rewrite lacks_append, zfill_lacks_plus.
Qed.

Lemma replace_offset (body rest : string) :
  lacks "+" body = true ->
  replace_from "+00:00" "Z" 0 (body ++ rest) =
  (body ++ replace_from "+00:00" "Z" 0 rest)%string.
Proof.
  unfold lacks. induction body as [|c body IH]; cbn [append chars forallb];
    [reflexivity |].
  intro H. apply andb_true_iff in H as [Hc Hb].
  cbn [replace_from String.prefix].
  destruct (ascii_dec "+" c) as [<- | _]; [discriminate |].
  now rewrite (IH Hb).
Qed.

Lemma health_timestamp (dt : datetime) :
  exists body,
    isoformat dt = (body ++ "+00:00")%string /\
    str_replace (isoformat dt) "+00:00" "Z" = (body ++ "Z")%string.
Proof.
  destruct (isoformat_offset dt) as (body & E & Hb).
  exists body. split; [exact E |].
  rewrite E. unfold str_replace. now rewrite (replace_offset _ _ Hb).
Qed.

(** X18.  GET /health on a host that gives its boot time and its pids
    answers "healthy", with the rendering of the first clock reading in
    which the UTC offset "+00:00" is replaced by "Z", and with the uptime
    that [get_system_info] computes from a second, later clock reading; the
    whole system information is collected for it.  Where the boot time is
    not an instant a [datetime] can hold, the request raises what
    [fromtimestamp] raises. *)
Theorem health_check_healthy (h : host) (t : log) (bt : Q) (pids : list Z) :
  h_boot_time h (1 + List.length t) = Ok bt ->
  h_pids h (8 + List.length t) = Ok pids ->
  exists body,
    isoformat (h_now h (List.length t)) = (body ++ "+00:00")%string /\
    match fromtimestamp bt with
    | Ok boot_time =>
        health_check h t =
          (Ok (VDict
             [ ("status", VStr "healthy");
               ("timestamp", VStr (body ++ "Z"));
               ("uptime_seconds",
                VInt (int_total_seconds (h_now h (2 + List.length t)) boot_time)) ]),
           (t ++ [ c_now; c_boot_time; c_now; c_platform "node"; c_platform "system";
                   c_platform "release"; c_platform "machine";
                   c_platform "python_version"; c_pids ])%list)
    | Raise e =>
        health_check h t = (Raise e, (t ++ [c_now; c_boot_time])%list)
    end.
Proof.
  intros Hb Hp.
  destruct (health_timestamp (h_now h (List.length t))) as (body & E & Hz).
  exists body. split; [exact E |].
  destruct (fromtimestamp bt) as [boot_time|e] eqn:Ef;
    unfold health_check, datetime_now;
    unfold bind at 1; unfold sys at 1; cbn beta iota;
    unfold bind at 1.
  - rewrite (get_system_info_run h (t ++ [c_now])%list bt boot_time pids)
      by (rewrite ?length_app, ?Nat.add_1_r; assumption).
    unfold bind, lift, ret. cbn [subscript dict_get String.eqb Ascii.eqb Bool.eqb].
    rewrite Hz, length_app, Nat.add_1_r, <- app_assoc. reflexivity.
  - rewrite (get_system_info_out_of_range h (t ++ [c_now])%list bt e)
      by (rewrite ?length_app, ?Nat.add_1_r; assumption).
    now rewrite <- app_assoc.
Qed.

Lemma health_check_healthy_witness :
  exists body,
    isoformat (h_now sample_host 0) = (body ++ "+00:00")%string /\
    health_check sample_host [] =
      (Ok (VDict
         [ ("status", VStr "healthy");
           ("timestamp", VStr (body ++ "Z"));
           ("uptime_seconds", VInt 3600) ]),
       [ c_now; c_boot_time; c_now; c_platform "node"; c_platform "system";
         c_platform "release"; c_platform "machine";
         c_platform "python_version"; c_pids ]).
Proof.
  apply (health_check_healthy sample_host [] (inject_Z 1700000000) [1; 2; 7; 42; 43]);
    reflexivity.
Defined.

(** X19.  GET /health has no "unhealthy" answer: when the boot time cannot
    be read, the request raises the exception of the host, after the clock
    and the boot time have been asked for. *)
Theorem health_check_failure (h : host) (t : log) (e : exn) :
  h_boot_time h (1 + List.length t) = Raise e ->
  health_check h t = (Raise e, (t ++ [c_now; c_boot_time])%list).
Proof.
  intro Hb. unfold health_check, datetime_now.
  unfold bind at 1. unfold sys at 1. cbn beta iota.
  unfold bind at 1.
  assert (E : get_system_info h (t ++ [c_now])%list
              = (Raise e, ((t ++ [c_now]) ++ [c_boot_time])%list)).
  { run_goal. cbn [Nat.add] in Hb. now rewrite Hb. }
  rewrite E. now rewrite <- app_assoc.
Qed.

Lemma health_check_failure_witness :
  health_check no_boot_time_host [] =
    (Raise (OSError "cannot read /proc/stat"), [c_now; c_boot_time]).
Proof.
  apply (health_check_failure no_boot_time_host []). reflexivity.
Defined.

(** ** GET /metrics without a root directory *)

(** X20.  GET /metrics stands or falls with the disk usage of "/": when the
    system, cpu and memory collections have returned and the root directory
    cannot be stat'ed, the request ends in the HTTP 400 "Invalid disk path:
    /", and neither the network counters nor the process table are read. *)
Theorem get_all_metrics_root_failure (h : host) (t t1 t2 t3 : log)
    (system cpu memory : value) (e : exn) :
  get_system_info h (t ++ [c_now])%list = (Ok system, t1) ->
  get_cpu_info h t1 = (Ok cpu, t2) ->
  get_memory_info h t2 = (Ok memory, t3) ->
  h_disk_usage h (List.length t3) "/" = Raise e ->
  get_all_metrics h t =
    (Raise (HTTPException 400 "Invalid disk path: /"), (t3 ++ [c_disk_usage "/"])%list).
Proof.
  intros Hs Hc Hm Hd.
  assert (E : get_disk_info "/" h t3 =
              (Raise (HTTPException 400 "Invalid disk path: /"),
               (t3 ++ [c_disk_usage "/"])%list))
    by (run_goal; now rewrite Hd).
  unfold get_all_metrics, timestamp_now, datetime_now.
  unfold bind at 1 2. unfold sys at 1, ret at 1. cbn beta iota.
  unfold bind. now rewrite Hs, Hc, Hm, E.
Qed.

Lemma get_all_metrics_root_failure_witness :
  get_all_metrics rootless_host [] =
    (Raise (HTTPException 400 "Invalid disk path: /"),
     [ c_now; c_boot_time; c_now; c_platform "node"; c_platform "system";
       c_platform "release"; c_platform "machine"; c_platform "python_version";
       c_pids; c_cpu_percent 1 false; c_cpu_percent (1 # 10) true;
       c_cpu_count true; c_cpu_count false; c_getloadavg;
       c_virtual_memory; c_swap_memory; c_disk_usage "/" ]).
Proof.
  pose (t1 := [ c_now; c_boot_time; c_now; c_platform "node"; c_platform "system";
                c_platform "release"; c_platform "machine";
                c_platform "python_version"; c_pids ]).
  pose (t2 := (t1 ++ [ c_cpu_percent 1 false; c_cpu_percent (1 # 10) true;
                       c_cpu_count true; c_cpu_count false; c_getloadavg ])%list).
  pose (t3 := (t2 ++ [ c_virtual_memory; c_swap_memory ])%list).
  pose (value_of := fun r : result value * log =>
                      match fst r with Ok v => v | Raise _ => VNone end).
  apply (get_all_metrics_root_failure rootless_host [] t1 t2 t3
           (value_of (get_system_info rootless_host [c_now]))
           (value_of (get_cpu_info rootless_host t1))
           (value_of (get_memory_info rootless_host t2))
           (OSError "No such file or directory"));
    vm_compute; reflexivity.
Defined.

(** ** The index and the 404 handler *)

(** X21.  The index and the 404 handler agree: GET / makes no call to the
    host, and every endpoint it advertises, as well as "/" and "/docs", is
    among the endpoints the 404 handler offers, whatever path was
    requested; the handler's message quotes that path. *)
Theorem not_found_lists_root (h : host) (t : log) (path : string) (exc : exn) :
  exists index advertised offered,
    root h t = (Ok index, t) /\
    subscript index "endpoints" = Ok (VDict advertised) /\
    not_found_handler path exc =
      (404,
       VDict [ ("error", VStr "Not Found");
               ("message", VStr ("The endpoint " ++ path ++ " does not exist"));
               ("available_endpoints", VList offered) ]) /\
    Forall (fun kv => In (snd kv) offered) advertised /\
    In (VStr "/") offered /\
    (forall doc, subscript index "docs" = Ok doc -> In doc offered).
Proof.
  do 3 eexists. split; [reflexivity |]. split; [reflexivity |].
  split; [reflexivity |].
  assert (Hin : forall x, existsb (String.eqb x)
            [ "/"; "/health"; "/system"; "/metrics"; "/metrics/cpu";
              "/metrics/memory"; "/metrics/disk"; "/metrics/network";
              "/processes"; "/docs" ] = true ->
          In (VStr x) available_endpoints).
  { intros x H. apply existsb_exists in H as (y & Hy & E).
    apply String.eqb_eq in E as <-. unfold available_endpoints.
    change (In (VStr x) (map VStr
      [ "/"; "/health"; "/system"; "/metrics"; "/metrics/cpu";
        "/metrics/memory"; "/metrics/disk"; "/metrics/network";
        "/processes"; "/docs" ])).
    now apply in_map. }
  split; [| split].
  - unfold root_endpoints. repeat (constructor; [apply Hin; reflexivity |]).
    constructor.
  - apply Hin. reflexivity.
  - intros doc H. injection H as <-. apply Hin. reflexivity.
Qed.
